(** * Weather MCP server: validation, NWS API client, formatter and service

    A shallow embedding of the TypeScript source of the server (the file
    that compiles to [build/index.js]) together with the ECMAScript
    built-ins the program calls
    ([String.prototype.toUpperCase], [Number::toString],
    [Number.prototype.toFixed], truthiness), and the properties of the
    retry loop, the validators, the formatter and the two service entry
    points.

    Conventions.
    - A JavaScript string is the list of its UTF-16 code units.
    - A JavaScript number is an IEEE-754 binary64 value ([float]); numbers
      that the program only uses as integers (HTTP status, attempt counter,
      delays) are in [Z].
    - Code that awaits, logs or throws is a function from the world before
      to an outcome and the world after; the world is the trace of the
      observable events (requests sent, warnings logged, delays slept). *)

From Stdlib Require Import ZArith List Bool String Ascii Lia Floats.
From Equations Require Import Equations.
Import ListNotations.

#[local] Set Warnings "-inexact-float".
#[local] Open Scope Z_scope.

(** ** ECMAScript built-ins used by the program *)

Module JS.

(** Strings: sequences of UTF-16 code units. *)
Definition jsstring := list Z.

(** An ASCII literal as a JavaScript string. *)
Definition js (s : string) : jsstring :=
  map (fun a => Z.of_N (N_of_ascii a)) (list_ascii_of_string s).

(** [Array.prototype.join] on an array of strings. *)
Fixpoint join (sep : jsstring) (parts : list jsstring) : jsstring :=
  match parts with
  | [] => []
  | [p] => p
  | p :: rest => p ++ sep ++ join sep rest
  end.

(** *** Upper-casing

    [String.prototype.toUpperCase] maps every code point of the string
    through the Unicode default upper-case conversion (UnicodeData.txt and
    the unconditional entries of SpecialCasing.txt, here of Unicode 14; later
    versions add letters, none of them with an image in the ASCII range).
    [upperRanges] lists the code points with a one code point image as
    (first, last, stride, offset); [upperSpecial] lists the code points
    whose image has several code points. *)

Definition upperRanges : list (Z * Z * Z * Z) :=
  [
   (97, 122, 1, (-32)); (181, 181, 1, 743); (224, 246, 1, (-32)); (248, 254, 1, (-32));
   (255, 255, 1, 121); (257, 303, 2, (-1)); (305, 305, 1, (-232)); (307, 311, 2, (-1));
   (314, 328, 2, (-1)); (331, 375, 2, (-1)); (378, 382, 2, (-1)); (383, 383, 1, (-300));
   (384, 384, 1, 195); (387, 389, 2, (-1)); (392, 392, 1, (-1)); (396, 396, 1, (-1));
   (402, 402, 1, (-1)); (405, 405, 1, 97); (409, 409, 1, (-1)); (410, 410, 1, 163);
   (414, 414, 1, 130); (417, 421, 2, (-1)); (424, 424, 1, (-1)); (429, 429, 1, (-1));
   (432, 432, 1, (-1)); (436, 438, 2, (-1)); (441, 441, 1, (-1)); (445, 445, 1, (-1));
   (447, 447, 1, 56); (453, 453, 1, (-1)); (454, 454, 1, (-2)); (456, 456, 1, (-1));
   (457, 457, 1, (-2)); (459, 459, 1, (-1)); (460, 460, 1, (-2)); (462, 476, 2, (-1));
   (477, 477, 1, (-79)); (479, 495, 2, (-1)); (498, 498, 1, (-1)); (499, 499, 1, (-2));
   (501, 501, 1, (-1)); (505, 543, 2, (-1)); (547, 563, 2, (-1)); (572, 572, 1, (-1));
   (575, 576, 1, 10815); (578, 578, 1, (-1)); (583, 591, 2, (-1)); (592, 592, 1, 10783);
   (593, 593, 1, 10780); (594, 594, 1, 10782); (595, 595, 1, (-210)); (596, 596, 1, (-206));
   (598, 599, 1, (-205)); (601, 601, 1, (-202)); (603, 603, 1, (-203)); (604, 604, 1, 42319);
   (608, 608, 1, (-205)); (609, 609, 1, 42315); (611, 611, 1, (-207)); (613, 613, 1, 42280);
   (614, 614, 1, 42308); (616, 616, 1, (-209)); (617, 617, 1, (-211)); (618, 618, 1, 42308);
   (619, 619, 1, 10743); (620, 620, 1, 42305); (623, 623, 1, (-211)); (625, 625, 1, 10749);
   (626, 626, 1, (-213)); (629, 629, 1, (-214)); (637, 637, 1, 10727); (640, 640, 1, (-218));
   (642, 642, 1, 42307); (643, 643, 1, (-218)); (647, 647, 1, 42282); (648, 648, 1, (-218));
   (649, 649, 1, (-69)); (650, 651, 1, (-217)); (652, 652, 1, (-71)); (658, 658, 1, (-219));
   (669, 669, 1, 42261); (670, 670, 1, 42258); (837, 837, 1, 84); (881, 883, 2, (-1));
   (887, 887, 1, (-1)); (891, 893, 1, 130); (940, 940, 1, (-38)); (941, 943, 1, (-37));
   (945, 961, 1, (-32)); (962, 962, 1, (-31)); (963, 971, 1, (-32)); (972, 972, 1, (-64));
   (973, 974, 1, (-63)); (976, 976, 1, (-62)); (977, 977, 1, (-57)); (981, 981, 1, (-47));
   (982, 982, 1, (-54)); (983, 983, 1, (-8)); (985, 1007, 2, (-1)); (1008, 1008, 1, (-86));
   (1009, 1009, 1, (-80)); (1010, 1010, 1, 7); (1011, 1011, 1, (-116)); (1013, 1013, 1, (-96));
   (1016, 1016, 1, (-1)); (1019, 1019, 1, (-1)); (1072, 1103, 1, (-32)); (1104, 1119, 1, (-80));
   (1121, 1153, 2, (-1)); (1163, 1215, 2, (-1)); (1218, 1230, 2, (-1)); (1231, 1231, 1, (-15));
   (1233, 1327, 2, (-1)); (1377, 1414, 1, (-48)); (4304, 4346, 1, 3008); (4349, 4351, 1, 3008);
   (5112, 5117, 1, (-8)); (7296, 7296, 1, (-6254)); (7297, 7297, 1, (-6253)); (7298, 7298, 1, (-6244));
   (7299, 7300, 1, (-6242)); (7301, 7301, 1, (-6243)); (7302, 7302, 1, (-6236)); (7303, 7303, 1, (-6181));
   (7304, 7304, 1, 35266); (7545, 7545, 1, 35332); (7549, 7549, 1, 3814); (7566, 7566, 1, 35384);
   (7681, 7829, 2, (-1)); (7835, 7835, 1, (-59)); (7841, 7935, 2, (-1)); (7936, 7943, 1, 8);
   (7952, 7957, 1, 8); (7968, 7975, 1, 8); (7984, 7991, 1, 8); (8000, 8005, 1, 8);
   (8017, 8023, 2, 8); (8032, 8039, 1, 8); (8048, 8049, 1, 74); (8050, 8053, 1, 86);
   (8054, 8055, 1, 100); (8056, 8057, 1, 128); (8058, 8059, 1, 112); (8060, 8061, 1, 126);
   (8112, 8113, 1, 8); (8126, 8126, 1, (-7205)); (8144, 8145, 1, 8); (8160, 8161, 1, 8);
   (8165, 8165, 1, 7); (8526, 8526, 1, (-28)); (8560, 8575, 1, (-16)); (8580, 8580, 1, (-1));
   (9424, 9449, 1, (-26)); (11312, 11359, 1, (-48)); (11361, 11361, 1, (-1)); (11365, 11365, 1, (-10795));
   (11366, 11366, 1, (-10792)); (11368, 11372, 2, (-1)); (11379, 11379, 1, (-1)); (11382, 11382, 1, (-1));
   (11393, 11491, 2, (-1)); (11500, 11502, 2, (-1)); (11507, 11507, 1, (-1)); (11520, 11557, 1, (-7264));
   (11559, 11559, 1, (-7264)); (11565, 11565, 1, (-7264)); (42561, 42605, 2, (-1)); (42625, 42651, 2, (-1));
   (42787, 42799, 2, (-1)); (42803, 42863, 2, (-1)); (42874, 42876, 2, (-1)); (42879, 42887, 2, (-1));
   (42892, 42892, 1, (-1)); (42897, 42899, 2, (-1)); (42900, 42900, 1, 48); (42903, 42921, 2, (-1));
   (42933, 42947, 2, (-1)); (42952, 42954, 2, (-1)); (42961, 42961, 1, (-1)); (42967, 42969, 2, (-1));
   (42998, 42998, 1, (-1)); (43859, 43859, 1, (-928)); (43888, 43967, 1, (-38864)); (65345, 65370, 1, (-32));
   (66600, 66639, 1, (-40)); (66776, 66811, 1, (-40)); (66967, 66977, 1, (-39)); (66979, 66993, 1, (-39));
   (66995, 67001, 1, (-39)); (67003, 67004, 1, (-39)); (68800, 68850, 1, (-64)); (71872, 71903, 1, (-32));
   (93792, 93823, 1, (-32)); (125218, 125251, 1, (-34))
  ].

Definition upperSpecial : list (Z * list Z) :=
  [
   (223, [83; 83]); (329, [700; 78]); (496, [74; 780]); (912, [921; 776; 769]);
   (944, [933; 776; 769]); (1415, [1333; 1362]); (7830, [72; 817]); (7831, [84; 776]);
   (7832, [87; 778]); (7833, [89; 778]); (7834, [65; 702]); (8016, [933; 787]);
   (8018, [933; 787; 768]); (8020, [933; 787; 769]); (8022, [933; 787; 834]); (8064, [7944; 921]);
   (8065, [7945; 921]); (8066, [7946; 921]); (8067, [7947; 921]); (8068, [7948; 921]);
   (8069, [7949; 921]); (8070, [7950; 921]); (8071, [7951; 921]); (8072, [7944; 921]);
   (8073, [7945; 921]); (8074, [7946; 921]); (8075, [7947; 921]); (8076, [7948; 921]);
   (8077, [7949; 921]); (8078, [7950; 921]); (8079, [7951; 921]); (8080, [7976; 921]);
   (8081, [7977; 921]); (8082, [7978; 921]); (8083, [7979; 921]); (8084, [7980; 921]);
   (8085, [7981; 921]); (8086, [7982; 921]); (8087, [7983; 921]); (8088, [7976; 921]);
   (8089, [7977; 921]); (8090, [7978; 921]); (8091, [7979; 921]); (8092, [7980; 921]);
   (8093, [7981; 921]); (8094, [7982; 921]); (8095, [7983; 921]); (8096, [8040; 921]);
   (8097, [8041; 921]); (8098, [8042; 921]); (8099, [8043; 921]); (8100, [8044; 921]);
   (8101, [8045; 921]); (8102, [8046; 921]); (8103, [8047; 921]); (8104, [8040; 921]);
   (8105, [8041; 921]); (8106, [8042; 921]); (8107, [8043; 921]); (8108, [8044; 921]);
   (8109, [8045; 921]); (8110, [8046; 921]); (8111, [8047; 921]); (8114, [8122; 921]);
   (8115, [913; 921]); (8116, [902; 921]); (8118, [913; 834]); (8119, [913; 834; 921]);
   (8124, [913; 921]); (8130, [8138; 921]); (8131, [919; 921]); (8132, [905; 921]);
   (8134, [919; 834]); (8135, [919; 834; 921]); (8140, [919; 921]); (8146, [921; 776; 768]);
   (8147, [921; 776; 769]); (8150, [921; 834]); (8151, [921; 776; 834]); (8162, [933; 776; 768]);
   (8163, [933; 776; 769]); (8164, [929; 787]); (8166, [933; 834]); (8167, [933; 776; 834]);
   (8178, [8186; 921]); (8179, [937; 921]); (8180, [911; 921]); (8182, [937; 834]);
   (8183, [937; 834; 921]); (8188, [937; 921]); (64256, [70; 70]); (64257, [70; 73]);
   (64258, [70; 76]); (64259, [70; 70; 73]); (64260, [70; 70; 76]); (64261, [83; 84]);
   (64262, [83; 84]); (64275, [1348; 1350]); (64276, [1348; 1333]); (64277, [1348; 1339]);
   (64278, [1358; 1350]); (64279, [1348; 1341])
  ].

Fixpoint lookupSpecial (table : list (Z * list Z)) (cp : Z) : option (list Z) :=
  match table with
  | [] => None
  | (c, image) :: rest => if c =? cp then Some image else lookupSpecial rest cp
  end.

Fixpoint lookupRange (table : list (Z * Z * Z * Z)) (cp : Z) : option Z :=
  match table with
  | [] => None
  | (first, last, stride, offset) :: rest =>
      if (first <=? cp) && (cp <=? last) && ((cp - first) mod stride =? 0)
      then Some (cp + offset)
      else lookupRange rest cp
  end.

(** The upper-case image of one code point. *)
Definition upperCodePoint (cp : Z) : list Z :=
  match lookupSpecial upperSpecial cp with
  | Some image => image
  | None =>
      match lookupRange upperRanges cp with
      | Some c => [c]
      | None => [cp]
      end
  end.

Definition isHighSurrogate (u : Z) : bool := (0xD800 <=? u) && (u <=? 0xDBFF).
Definition isLowSurrogate (u : Z) : bool := (0xDC00 <=? u) && (u <=? 0xDFFF).

(** Code units to code points: a surrogate pair is one code point, a lone
    surrogate stands for itself. *)
Fixpoint codePoints (s : jsstring) : list Z :=
  match s with
  | [] => []
  | hi :: rest =>
      match rest with
      | lo :: rest' =>
          if isHighSurrogate hi && isLowSurrogate lo
          then (0x10000 + (hi - 0xD800) * 0x400 + (lo - 0xDC00)) :: codePoints rest'
          else hi :: codePoints rest
      | [] => [hi]
      end
  end.

Definition codeUnits (cp : Z) : jsstring :=
  if cp <? 0x10000 then [cp]
  else [0xD800 + (cp - 0x10000) / 0x400; 0xDC00 + (cp - 0x10000) mod 0x400].

Definition toUpperCase (s : jsstring) : jsstring :=
  flat_map codeUnits (flat_map upperCodePoint (codePoints s)).

(** *** Numbers to strings *)

Fixpoint digitUnits (d : Decimal.uint) : jsstring :=
  match d with
  | Decimal.Nil => []
  | Decimal.D0 d => 48 :: digitUnits d
  | Decimal.D1 d => 49 :: digitUnits d
  | Decimal.D2 d => 50 :: digitUnits d
  | Decimal.D3 d => 51 :: digitUnits d
  | Decimal.D4 d => 52 :: digitUnits d
  | Decimal.D5 d => 53 :: digitUnits d
  | Decimal.D6 d => 54 :: digitUnits d
  | Decimal.D7 d => 55 :: digitUnits d
  | Decimal.D8 d => 56 :: digitUnits d
  | Decimal.D9 d => 57 :: digitUnits d
  end.

(** The decimal digits of a natural number, most significant first
    ("0" for zero). *)
Definition decimalDigits (n : Z) : jsstring := digitUnits (N.to_uint (Z.to_N n)).

(** [Number::toString] of an integer-valued number of moderate size. *)
Definition integerToString (n : Z) : jsstring :=
  if n <? 0 then js "-" ++ decimalDigits (- n) else decimalDigits n.

Definition len (s : jsstring) : Z := Z.of_nat (List.length s).

Definition zeros (n : Z) : jsstring := repeat 48 (Z.to_nat n).

(** The positive finite binary64 value [m * 2^e] is handled exactly, as the
    integer [num] over the power of two [den]; [lo] and [hi] are the ends of its
    rounding interval on the same scale: every real strictly between them
    (and the ends themselves when [m] is even) rounds to the value. *)
Record Scaled := { num : Z; den : Z; lo : Z; hi : Z; closed : bool }.

Definition scaled (m : positive) (e : Z) : Scaled :=
  let sh := Z.max 0 (2 - e) in
  let up := 2 ^ (e + sh - 1) in
  let down := if (Z.pos m =? 2 ^ 52) && (-1074 <? e) then 2 ^ (e + sh - 2) else up in
  let x := Z.pos m * 2 ^ (e + sh) in
  {| num := x; den := 2 ^ sh; lo := x - down; hi := x + up; closed := Z.even (Z.pos m) |}.

(** The decimal exponent [n] with [10^(n-1) <= num/den < 10^n].  Below 1 it
    is found by counting up from [10^-1]; the smallest positive binary64
    value is above [10^-324], so 400 steps are more than enough. *)
Fixpoint smallExponent (fuel : nat) (v : Scaled) (j : Z) : Z :=
  match fuel with
  | O => 1 - j
  | S fuel' =>
      if den v <=? num v * 10 ^ j then 1 - j else smallExponent fuel' v (j + 1)
  end.

Definition decimalExponent (v : Scaled) : Z :=
  if den v <=? num v
  then len (decimalDigits (num v / den v))
  else smallExponent 400 v 1.

(** The [k]-digit decimal [s * 10^(n0-k)] nearest to the value, when it
    rounds to the value (ties between two such decimals go to the even
    [s]). *)
Definition candidate (v : Scaled) (n0 k : Z) : option Z :=
  let p := n0 - k in
  let T := 10 ^ Z.max 0 (- p) in
  let U := 10 ^ Z.max 0 p in
  let below := (num v * T) / (den v * U) in
  let inside s :=
    let c := s * den v * U in
    if closed v then (lo v * T <=? c) && (c <=? hi v * T)
    else (lo v * T <? c) && (c <? hi v * T) in
  let dist s := Z.abs (s * den v * U - num v * T) in
  match inside below, inside (below + 1) with
  | true, false => Some below
  | false, true => Some (below + 1)
  | false, false => None
  | true, true =>
      if dist below <? dist (below + 1) then Some below
      else if dist (below + 1) <? dist below then Some (below + 1)
      else if Z.even below then Some below else Some (below + 1)
  end.

(** Step 5 of [Number::toString]: the integers [s], [k] and [n] with [k] as
    small as possible such that [s * 10^(n-k)] rounds to the value, returned
    as the digits of [s] and [n].  The search starts at [k = 1]; a binary64
    value is always recovered from its nearest decimal of 17 digits, so the
    search ends within 17 steps. *)
Fixpoint shortest (fuel : nat) (v : Scaled) (n0 k : Z) : jsstring * Z :=
  match fuel with
  | O => (decimalDigits ((num v * 10 ^ Z.max 0 (k - n0)) / (den v * 10 ^ Z.max 0 (n0 - k))), n0)
  | S fuel' =>
      match candidate v n0 k with
      | Some s => if s =? 10 ^ k then (js "1", n0 + 1) else (decimalDigits s, n0)
      | None => shortest fuel' v n0 (k + 1)
      end
  end.

(** Steps 6 to 10 of [Number::toString]: the layout of the digits. *)
Definition layout (ds : jsstring) (n : Z) : jsstring :=
  let k := len ds in
  if (k <=? n) && (n <=? 21) then ds ++ zeros (n - k)
  else if (0 <? n) && (n <=? 21) then
    firstn (Z.to_nat n) ds ++ js "." ++ skipn (Z.to_nat n) ds
  else if (-6 <? n) && (n <=? 0) then js "0." ++ zeros (- n) ++ ds
  else
    let e := n - 1 in
    let exponent := (if e <? 0 then js "-" else js "+") ++ decimalDigits (Z.abs e) in
    if k =? 1 then ds ++ js "e" ++ exponent
    else firstn 1 ds ++ js "." ++ skipn 1 ds ++ js "e" ++ exponent.

Definition positiveToString (m : positive) (e : Z) : jsstring :=
  let v := scaled m e in
  let '(ds, n) := shortest 17 v (decimalExponent v) 1 in
  layout ds n.

(** [Number::toString] (radix 10). *)
Definition NumberToString (x : float) : jsstring :=
  match Prim2SF x with
  | S754_nan => js "NaN"
  | S754_zero _ => js "0"
  | S754_infinity false => js "Infinity"
  | S754_infinity true => js "-Infinity"
  | S754_finite false m e => positiveToString m e
  | S754_finite true m e => js "-" ++ positiveToString m e
  end.

(** [Number.prototype.toFixed]: [fractionDigits] digits after the point,
    the value rounded to the nearest such decimal, the larger one on a tie;
    numbers that are not finite or are at least [10^21] in magnitude are
    printed by [Number::toString]. *)
Definition roundedTimesPow10 (m : positive) (e f : Z) : Z :=
  if 0 <=? e then Z.pos m * 2 ^ e * 10 ^ f
  else (2 * Z.pos m * 10 ^ f + 2 ^ (- e)) / 2 ^ (1 - e).

Definition fixedDigits (n f : Z) : jsstring :=
  let m := decimalDigits n in
  if f =? 0 then m
  else
    let m := if len m <=? f then zeros (f + 1 - len m) ++ m else m in
    let k := len m in
    firstn (Z.to_nat (k - f)) m ++ js "." ++ skipn (Z.to_nat (k - f)) m.

(** [m * 2^e >= 10^21] *)
Definition atLeast1e21 (m : positive) (e : Z) : bool :=
  10 ^ 21 * 2 ^ Z.max 0 (- e) <=? Z.pos m * 2 ^ Z.max 0 e.

Definition toFixed (x : float) (fractionDigits : Z) : jsstring :=
  match Prim2SF x with
  | S754_finite sign m e =>
      (if sign then js "-" else [])
      ++ (if atLeast1e21 m e
          then positiveToString m e
          else fixedDigits (roundedTimesPow10 m e fractionDigits) fractionDigits)
  | S754_zero _ => fixedDigits 0 fractionDigits
  | _ => NumberToString x
  end.

(** [ToBoolean] on the values the program tests. *)
Definition truthyString (s : jsstring) : bool :=
  match s with [] => false | _ => true end.

Definition truthyNumber (x : float) : bool :=
  negb (PrimFloat.eqb x 0 || PrimFloat.is_nan x).

(** [a || b] when [a] is an optional string and [b] a string. *)
Definition orString (a : option jsstring) (b : jsstring) : jsstring :=
  match a with
  | Some s => if truthyString s then s else b
  | None => b
  end.

End JS.

Import JS.

(** ** Constants and configuration *)

Module CONFIG.
Definition NWS_API_BASE : jsstring := js "https://api.weather.gov".
Definition USER_AGENT : jsstring := js "weather-app/1.0".
Definition COORDINATE_PRECISION : Z := 4.
Definition MAX_RETRIES : Z := 3.
Definition RETRY_DELAY : Z := 1000.
End CONFIG.

(** ** Type definitions *)

Module AlertFeature.
Record Properties := {
  event : option jsstring;
  areaDesc : option jsstring;
  severity : option jsstring;
  status : option jsstring;
  headline : option jsstring }.
Record t := { properties : Properties }.
End AlertFeature.

Module ForecastPeriod.
Record t := {
  name : option jsstring;
  temperature : option float;
  temperatureUnit : option jsstring;
  windSpeed : option jsstring;
  windDirection : option jsstring;
  shortForecast : option jsstring }.
End ForecastPeriod.

(** The three payloads.  The members that the service reads through [?.] or
    [|| []] may be missing at run time and are optional here. *)
Module AlertsResponse.
Record t := { features : option (list AlertFeature.t) }.
End AlertsResponse.

Module PointsResponse.
Record Properties := { forecast : option jsstring }.
Record t := { properties : option Properties }.
End PointsResponse.

Module ForecastResponse.
Record Properties := { periods : option (list ForecastPeriod.t) }.
Record t := { properties : option Properties }.
End ForecastResponse.

(** ** Error handling *)

(** [class WeatherServiceError extends Error] (its [name] is the constant
    "WeatherServiceError"). *)
Record WeatherServiceError := {
  message : jsstring;
  code : jsstring;
  statusCode : option Z;
  retryable : bool }.

(** The constructor; [statusCode] is [undefined] and [retryable] is [false]
    when they are not given. *)
Definition newWeatherServiceError (message code : jsstring)
    (statusCode : option Z) (retryable : bool) : WeatherServiceError :=
  {| message := message; code := code; statusCode := statusCode; retryable := retryable |}.

(** What the platform ([fetch], [Response.json]) throws: never a
    [WeatherServiceError]; either an [Error] with its message or some other
    value. *)
Inductive Failure :=
| ErrorObject (message : jsstring)
| NotAnError.

(** A thrown value, by the test [error instanceof WeatherServiceError]. *)
Inductive Thrown :=
| Typed (e : WeatherServiceError)
| Foreign (f : Failure).

(** [error instanceof Error ? error.message : 'Unknown error'], for an error
    that is not a [WeatherServiceError]. *)
Definition messageOf (f : Failure) : jsstring :=
  match f with
  | ErrorObject m => m
  | NotAnError => js "Unknown error"
  end.

(** The result of a call: a value or an exception. *)
Inductive Outcome (A : Set) : Set :=
| Return (a : A)
| Throw (t : Thrown).
Arguments Return {A} a.
Arguments Throw {A} t.

(** ** Utility functions *)

(** [lat.toFixed(4),lon.toFixed(4)] *)
Definition formatCoordinates (lat lon : float) : jsstring :=
  toFixed lat CONFIG.COORDINATE_PRECISION ++ js "," ++ toFixed lon CONFIG.COORDINATE_PRECISION.

Definition isCapital (u : Z) : bool := (65 <=? u) && (u <=? 90).

(** [/^[A-Z]{2}$/.test(s)]: without the [m] flag [$] is the end of the
    input. *)
Definition testTwoCapitals (s : jsstring) : bool :=
  match s with
  | [a; b] => isCapital a && isCapital b
  | _ => false
  end.

Definition validateStateCode (state : jsstring) : Outcome jsstring :=
  let stateCode := toUpperCase state in
  if negb (testTwoCapitals stateCode) then
    Throw (Typed (newWeatherServiceError
      (js "Invalid state code: " ++ state
       ++ js ". Must be a two-letter state code (e.g., CA, NY)")
      (js "INVALID_STATE_CODE") None false))
  else Return stateCode.

Definition validateCoordinates (latitude longitude : float) : Outcome unit :=
  if PrimFloat.ltb latitude (-90) || PrimFloat.ltb 90 latitude then
    Throw (Typed (newWeatherServiceError
      (js "Invalid latitude: " ++ NumberToString latitude
       ++ js ". Must be between -90 and 90")
      (js "INVALID_LATITUDE") None false))
  else if PrimFloat.ltb longitude (-180) || PrimFloat.ltb 180 longitude then
    Throw (Typed (newWeatherServiceError
      (js "Invalid longitude: " ++ NumberToString longitude
       ++ js ". Must be between -180 and 180")
      (js "INVALID_LONGITUDE") None false))
  else Return tt.

(** ** The world *)

(** A request as [fetch(url, { headers })] sends it. *)
Module Request.
Record t := {
  url : jsstring;
  headers : list (jsstring * jsstring) }.
End Request.

(** The observable events of a run, oldest first. *)
Inductive Event :=
| Fetched (r : Request.t)
| Warned (text : jsstring)
| Slept (ms : Z).

Definition World := list Event.

Definition isFetched (e : Event) : bool :=
  match e with Fetched _ => true | _ => false end.

Definition isSlept (e : Event) : bool :=
  match e with Slept _ => true | _ => false end.

(** The requests sent so far. *)
Definition fetchCount (w : World) : nat := List.length (filter isFetched w).

(** [response.json()]: the parsed payload, or what parsing throws. *)
Inductive Json (T : Set) : Set :=
| Parsed (payload : T)
| Unparsable (f : Failure).
Arguments Parsed {T} payload.
Arguments Unparsable {T} f.

Module Response.
Record t (T : Set) : Set := {
  status : Z;
  statusText : jsstring;
  json : Json T }.
Arguments status {T} _.
Arguments statusText {T} _.
Arguments json {T} _.

(** [response.ok]: the status is in the range 200 to 299. *)
Definition ok {T} (r : t T) : bool := (200 <=? status r) && (status r <=? 299).
End Response.

(** [await fetch(...)]: the promise rejects (no HTTP response at all) or
    resolves to a response. *)
Inductive FetchResult (T : Set) : Set :=
| Rejected (f : Failure)
| Resolved (r : Response.t T).
Arguments Rejected {T} f.
Arguments Resolved {T} r.

(** The upstream service, as seen through [fetch] and the unchecked cast
    [response.json() as T]: its answer to a request, given how many requests
    were sent before it. *)
Definition Upstream (T : Set) : Set := nat -> Request.t -> FetchResult T.

(** Sleep for a specified number of milliseconds. *)
Definition sleep (ms : Z) (w : World) : World := w ++ [Slept ms].

(** [console.warn(text)] *)
Definition consoleWarn (text : jsstring) (w : World) : World := w ++ [Warned text].

(** ** Tasks

    An [async] function: from the world before the call to its outcome and
    the world after. *)

Definition Task (A : Set) : Type := World -> Outcome A * World.

Definition ret {A : Set} (a : A) : Task A := fun w => (Return a, w).

Definition throw {A : Set} (t : Thrown) : Task A := fun w => (Throw t, w).

(** A synchronous call inside a task. *)
Definition lift {A : Set} (o : Outcome A) : Task A := fun w => (o, w).

(** [const x = await m; k] *)
Definition bind {A B : Set} (m : Task A) (k : A -> Task B) : Task B :=
  fun w =>
    match m w with
    | (Return a, w') => k a w'
    | (Throw t, w') => (Throw t, w')
    end.

(** [try { m } catch (error) { handler }] *)
Definition tryCatch {A : Set} (m : Task A) (handler : Thrown -> Task A) : Task A :=
  fun w =>
    match m w with
    | (Throw t, w') => handler t w'
    | done => done
    end.

Notation "x <- m ;; k" := (bind m (fun x => k))
  (at level 61, m at next level, right associativity).

(** ** API client *)

Module NWSAPIClient.

Record t := {
  baseUrl : jsstring;
  userAgent : jsstring }.

(** How one pass through the body of the [for] loop ends. *)
Inductive Completion (T : Set) : Set :=
| Returns (payload : T)
| Throws (error : Thrown)
| NextAttempt.
Arguments Returns {T} payload.
Arguments Throws {T} error.
Arguments NextAttempt {T}.

Section MakeRequest.

Context {T : Set}.
Variable upstream : Upstream T.
Variable this : t.
Variable url : jsstring.
Variable retries : Z.

Definition requestHeaders : list (jsstring * jsstring) :=
  [(js "User-Agent", userAgent this); (js "Accept", js "application/geo+json")].

Definition request : Request.t :=
  {| Request.url := url; Request.headers := requestHeaders |}.

Definition retryWarning (attempt : Z) : jsstring :=
  js "Attempt " ++ integerToString attempt ++ js " failed, retrying in "
  ++ integerToString CONFIG.RETRY_DELAY ++ js "ms...".

(** [console.warn(...); await sleep(CONFIG.RETRY_DELAY)] *)
Definition warnAndSleep (attempt : Z) (w : World) : World :=
  sleep CONFIG.RETRY_DELAY (consoleWarn (retryWarning attempt) w).

(** The [try] block of one attempt. *)
Definition tryBlock (attempt : Z) (w : World) : Completion T * World :=
  let w1 := w ++ [Fetched request] in
  match upstream (fetchCount w) request with
  | Rejected f => (Throws (Foreign f), w1)
  | Resolved response =>
      if negb (Response.ok response) then
        let errorMessage :=
          js "HTTP " ++ integerToString (Response.status response) ++ js ": "
          ++ Response.statusText response in
        let isRetryable :=
          (500 <=? Response.status response) || (Response.status response =? 429) in
        if attempt =? retries then
          (Throws (Typed (newWeatherServiceError errorMessage (js "API_REQUEST_FAILED")
                            (Some (Response.status response)) isRetryable)), w1)
        else if isRetryable then
          (NextAttempt, warnAndSleep attempt w1)
        else
          (Throws (Typed (newWeatherServiceError errorMessage (js "API_REQUEST_FAILED")
                            (Some (Response.status response)) false)), w1)
      else
        match Response.json response with
        | Parsed payload => (Returns payload, w1)
        | Unparsable f => (Throws (Foreign f), w1)
        end
  end.

(** The [catch] block of one attempt. *)
Definition catchBlock (attempt : Z) (error : Thrown) (w : World) : Completion T * World :=
  match error with
  | Typed e => (Throws (Typed e), w)
  | Foreign f =>
      if attempt =? retries then
        (Throws (Typed (newWeatherServiceError (js "Network error: " ++ messageOf f)
                          (js "NETWORK_ERROR") None true)), w)
      else (NextAttempt, warnAndSleep attempt w)
  end.

(** One pass through the body of the loop. *)
Definition attemptOnce (attempt : Z) (w : World) : Completion T * World :=
  match tryBlock attempt w with
  | (Throws error, w') => catchBlock attempt error w'
  | completed => completed
  end.

(** [for (let attempt = ...; attempt <= retries; attempt++) { ... }] followed
    by the [throw] after the loop. *)
Equations? attemptsFrom (attempt : Z) (w : World) : Outcome T * World
  by wf (Z.to_nat (retries + 1 - attempt)) lt :=
attemptsFrom attempt w with Z_le_gt_dec attempt retries := {
  | left _ =>
      match attemptOnce attempt w with
      | (Returns payload, w') => (Return payload, w')
      | (Throws error, w') => (Throw error, w')
      | (NextAttempt, w') => attemptsFrom (attempt + 1) w'
      end
  | right _ =>
      (Throw (Typed (newWeatherServiceError (js "Max retries exceeded")
                       (js "MAX_RETRIES_EXCEEDED") None false)), w) }.
Proof. lia. Defined.

Definition makeRequest : Task T := attemptsFrom 1.

End MakeRequest.

(** Get weather alerts for a state. *)
Definition getAlerts (upstream : Upstream AlertsResponse.t) (this : t)
    (stateCode : jsstring) : Task AlertsResponse.t :=
  let url := baseUrl this ++ js "/alerts?area=" ++ stateCode in
  makeRequest upstream this url CONFIG.MAX_RETRIES.

(** Get grid point data for coordinates. *)
Definition getGridPoint (upstream : Upstream PointsResponse.t) (this : t)
    (latitude longitude : float) : Task PointsResponse.t :=
  let coordinates := formatCoordinates latitude longitude in
  let url := baseUrl this ++ js "/points/" ++ coordinates in
  makeRequest upstream this url CONFIG.MAX_RETRIES.

(** Get forecast data from a forecast URL. *)
Definition getForecast (upstream : Upstream ForecastResponse.t) (this : t)
    (forecastUrl : jsstring) : Task ForecastResponse.t :=
  makeRequest upstream this forecastUrl CONFIG.MAX_RETRIES.

End NWSAPIClient.

(** ** Data formatters *)

Module WeatherDataFormatter.

Definition LF : jsstring := [10].

(** [x || fallback] inside a template literal, for an optional number. *)
Definition numberOr (x : option float) (fallback : jsstring) : jsstring :=
  match x with
  | Some v => if truthyNumber v then NumberToString v else fallback
  | None => fallback
  end.

Definition formatAlert (feature : AlertFeature.t) : jsstring :=
  let props := AlertFeature.properties feature in
  join LF
    [ js "Event: " ++ orString (AlertFeature.event props) (js "Unknown");
      js "Area: " ++ orString (AlertFeature.areaDesc props) (js "Unknown");
      js "Severity: " ++ orString (AlertFeature.severity props) (js "Unknown");
      js "Status: " ++ orString (AlertFeature.status props) (js "Unknown");
      js "Headline: " ++ orString (AlertFeature.headline props) (js "No headline");
      js "---" ].

(** The two characters between the temperature and its unit, U+00C2 U+00B0
    as the TypeScript source has them. *)
Definition degrees : jsstring := [0xC2; 0xB0].

Definition formatForecastPeriod (period : ForecastPeriod.t) : jsstring :=
  join LF
    [ orString (ForecastPeriod.name period) (js "Unknown") ++ js ":";
      js "Temperature: " ++ numberOr (ForecastPeriod.temperature period) (js "Unknown")
      ++ degrees ++ orString (ForecastPeriod.temperatureUnit period) (js "F");
      js "Wind: " ++ orString (ForecastPeriod.windSpeed period) (js "Unknown")
      ++ js " " ++ orString (ForecastPeriod.windDirection period) [];
      orString (ForecastPeriod.shortForecast period) (js "No forecast available");
      js "---" ].

Definition formatAlerts (alerts : list AlertFeature.t) (stateCode : jsstring) : jsstring :=
  match alerts with
  | [] => js "No active alerts for " ++ stateCode
  | _ =>
      let formattedAlerts := map formatAlert alerts in
      js "Active alerts for " ++ stateCode ++ js ":" ++ LF ++ LF
      ++ join LF formattedAlerts
  end.

Definition formatForecast (periods : list ForecastPeriod.t)
    (latitude longitude : float) : jsstring :=
  match periods with
  | [] => js "No forecast periods available"
  | _ =>
      let formattedPeriods := map formatForecastPeriod periods in
      js "Forecast for " ++ NumberToString latitude ++ js ", "
      ++ NumberToString longitude ++ js ":" ++ LF ++ LF
      ++ join LF formattedPeriods
  end.

End WeatherDataFormatter.

(** ** Weather service *)

(** The upstream service behind the three kinds of request. *)
Record Network := {
  alertsEndpoint : Upstream AlertsResponse.t;
  pointsEndpoint : Upstream PointsResponse.t;
  forecastEndpoint : Upstream ForecastResponse.t }.

Module WeatherService.

(** The client the constructor builds. *)
Definition apiClient : NWSAPIClient.t :=
  {| NWSAPIClient.baseUrl := CONFIG.NWS_API_BASE;
     NWSAPIClient.userAgent := CONFIG.USER_AGENT |}.

(** The [catch] block of both entry points: a [WeatherServiceError] is
    thrown again, anything else is wrapped. *)
Definition rethrowOrWrap {A : Set} (prefix code : jsstring) (error : Thrown) : Task A :=
  match error with
  | Typed e => throw (Typed e)
  | Foreign f =>
      throw (Typed (newWeatherServiceError (prefix ++ messageOf f) code None false))
  end.

Section Service.

Variable network : Network.

(** Get weather alerts for a state. *)
Definition getAlerts (state : jsstring) : Task jsstring :=
  tryCatch
    (stateCode <- lift (validateStateCode state) ;;
     alertsData <- NWSAPIClient.getAlerts (alertsEndpoint network) apiClient stateCode ;;
     let features :=
       match AlertsResponse.features alertsData with
       | Some features => features
       | None => []
       end in
     ret (WeatherDataFormatter.formatAlerts features stateCode))
    (rethrowOrWrap (js "Failed to retrieve alerts: ") (js "ALERTS_RETRIEVAL_FAILED")).

(** [pointsData.properties?.forecast] *)
Definition forecastUrlOf (pointsData : PointsResponse.t) : option jsstring :=
  match PointsResponse.properties pointsData with
  | Some properties => PointsResponse.forecast properties
  | None => None
  end.

(** [forecastData.properties?.periods || []] *)
Definition periodsOf (forecastData : ForecastResponse.t) : list ForecastPeriod.t :=
  match ForecastResponse.properties forecastData with
  | Some properties =>
      match ForecastResponse.periods properties with
      | Some periods => periods
      | None => []
      end
  | None => []
  end.

(** The error of a grid point without a usable forecast URL. *)
Definition forecastUrlMissing : Thrown :=
  Typed (newWeatherServiceError (js "Failed to get forecast URL from grid point data")
           (js "FORECAST_URL_MISSING") None false).

(** Get weather forecast for coordinates.  [!forecastUrl] holds for a
    missing URL and for the empty string. *)
Definition getForecast (latitude longitude : float) : Task jsstring :=
  tryCatch
    (_ <- lift (validateCoordinates latitude longitude) ;;
     pointsData <- NWSAPIClient.getGridPoint (pointsEndpoint network) apiClient
                     latitude longitude ;;
     match forecastUrlOf pointsData with
     | None => throw forecastUrlMissing
     | Some forecastUrl =>
         if negb (truthyString forecastUrl) then throw forecastUrlMissing
         else
           forecastData <- NWSAPIClient.getForecast (forecastEndpoint network) apiClient
                             forecastUrl ;;
           ret (WeatherDataFormatter.formatForecast (periodsOf forecastData)
                  latitude longitude)
     end)
    (rethrowOrWrap (js "Failed to retrieve forecast: ") (js "FORECAST_RETRIEVAL_FAILED")).

End Service.

End WeatherService.

(** ** Vocabulary of the properties *)

Definition isDigit (u : Z) : bool := (48 <=? u) && (u <=? 57).

(** A decimal numeral with exactly [f] digits after its only point: an
    optional minus sign, at least one digit, the point, [f] digits. *)
Definition FixedDecimal (f : nat) (s : jsstring) : Prop :=
  exists sign whole fraction,
    s = sign ++ whole ++ js "." ++ fraction
    /\ (sign = [] \/ sign = js "-")
    /\ whole <> []
    /\ forallb isDigit whole = true
    /\ forallb isDigit fraction = true
    /\ List.length fraction = f.

(** The numbers [toFixed] prints in fixed notation: the finite ones of
    magnitude below [10^21]. *)
Definition inFixedRange (x : float) : bool :=
  match Prim2SF x with
  | S754_zero _ => true
  | S754_finite _ m e => negb (atLeast1e21 m e)
  | _ => false
  end.

Definition isAscii (u : Z) : bool := (0 <=? u) && (u <? 128).

Definition isAsciiLetter (u : Z) : bool :=
  ((65 <=? u) && (u <=? 90)) || ((97 <=? u) && (u <=? 122)).

Definition asciiUpper (u : Z) : Z :=
  if (97 <=? u) && (u <=? 122) then u - 32 else u.

(** Exactly two ASCII letters, in any case. *)
Definition twoAsciiLetters (s : jsstring) : bool :=
  match s with
  | [a; b] => isAsciiLetter a && isAsciiLetter b
  | _ => false
  end.

(** The error [validateStateCode] throws for the input [state]. *)
Definition invalidStateCode (state : jsstring) : WeatherServiceError :=
  newWeatherServiceError
    (js "Invalid state code: " ++ state
     ++ js ". Must be a two-letter state code (e.g., CA, NY)")
    (js "INVALID_STATE_CODE") None false.

(** The error of a request that ends on a non-2xx response. *)
Definition apiRequestFailed {T : Set} (response : Response.t T) (retryable : bool)
  : WeatherServiceError :=
  newWeatherServiceError
    (js "HTTP " ++ integerToString (Response.status response) ++ js ": "
     ++ Response.statusText response)
    (js "API_REQUEST_FAILED") (Some (Response.status response)) retryable.

(** The error of a request whose last attempt got no usable response. *)
Definition networkError (f : Failure) : WeatherServiceError :=
  newWeatherServiceError (js "Network error: " ++ messageOf f)
    (js "NETWORK_ERROR") None true.

(** What a request for [request] may add to the world: that request, a
    warning, or a delay of [CONFIG.RETRY_DELAY]. *)
Definition OwnEvent (request : Request.t) (e : Event) : Prop :=
  match e with
  | Fetched r => r = request
  | Warned _ => True
  | Slept ms => ms = CONFIG.RETRY_DELAY
  end.

(** A grid point that carries no forecast URL: [properties] or [forecast] is
    missing, or [forecast] is the empty string. *)
Definition lacksForecastUrl (pointsData : PointsResponse.t) : bool :=
  match WeatherService.forecastUrlOf pointsData with
  | Some forecastUrl => negb (truthyString forecastUrl)
  | None => true
  end.

(** A present but falsy member, replaced by an absent one. *)
Definition absentIfEmpty (field : option jsstring) : option jsstring :=
  match field with
  | Some [] => None
  | _ => field
  end.

Definition absentIfFalsy (field : option float) : option float :=
  match field with
  | Some v => if truthyNumber v then field else None
  | None => None
  end.

Definition withoutFalsyAlertFields (feature : AlertFeature.t) : AlertFeature.t :=
  let props := AlertFeature.properties feature in
  {| AlertFeature.properties :=
       {| AlertFeature.event := absentIfEmpty (AlertFeature.event props);
          AlertFeature.areaDesc := absentIfEmpty (AlertFeature.areaDesc props);
          AlertFeature.severity := absentIfEmpty (AlertFeature.severity props);
          AlertFeature.status := absentIfEmpty (AlertFeature.status props);
          AlertFeature.headline := absentIfEmpty (AlertFeature.headline props) |} |}.

Definition withoutFalsyPeriodFields (period : ForecastPeriod.t) : ForecastPeriod.t :=
  {| ForecastPeriod.name := absentIfEmpty (ForecastPeriod.name period);
     ForecastPeriod.temperature := absentIfFalsy (ForecastPeriod.temperature period);
     ForecastPeriod.temperatureUnit := absentIfEmpty (ForecastPeriod.temperatureUnit period);
     ForecastPeriod.windSpeed := absentIfEmpty (ForecastPeriod.windSpeed period);
     ForecastPeriod.windDirection := absentIfEmpty (ForecastPeriod.windDirection period);
     ForecastPeriod.shortForecast := absentIfEmpty (ForecastPeriod.shortForecast period) |}.

(** ** Simulated upstreams *)

Module Simulated.

Definition noAlerts : AlertsResponse.t := {| AlertsResponse.features := Some [] |}.

Definition respond {T : Set} (status : Z) (statusText : jsstring) (body : Json T)
  : FetchResult T :=
  Resolved {| Response.status := status; Response.statusText := statusText;
              Response.json := body |}.

Definition htmlBody {T : Set} : Json T :=
  Unparsable (ErrorObject (js "Unexpected token < in JSON at position 0")).

(** HTTP 503 twice, then 200 with a JSON body. *)
Definition overloadedTwice : Upstream AlertsResponse.t :=
  fun sentBefore _ =>
    match sentBefore with
    | 0%nat | 1%nat => respond 503 (js "Service Unavailable") htmlBody
    | _ => respond 200 (js "OK") (Parsed noAlerts)
    end.

(** HTTP 404 on every request. *)
Definition notFound : Upstream AlertsResponse.t :=
  fun _ _ => respond 404 (js "Not Found") htmlBody.

(** HTTP 200 with a body that is not JSON, then 200 with a JSON body. *)
Definition garbledOnce : Upstream AlertsResponse.t :=
  fun sentBefore _ =>
    match sentBefore with
    | 0%nat => respond 200 (js "OK") htmlBody
    | _ => respond 200 (js "OK") (Parsed noAlerts)
    end.

(** HTTP 200 with a body that is not JSON, then 404. *)
Definition garbledThenNotFound : Upstream AlertsResponse.t :=
  fun sentBefore _ =>
    match sentBefore with
    | 0%nat => respond 200 (js "OK") htmlBody
    | _ => respond 404 (js "Not Found") htmlBody
    end.

(** A grid point without a forecast URL; the other two endpoints are down. *)
Definition gridPointWithoutForecast : Network :=
  {| alertsEndpoint := fun _ _ => Rejected (ErrorObject (js "fetch failed"));
     pointsEndpoint := fun _ _ =>
       respond 200 (js "OK")
         (Parsed {| PointsResponse.properties :=
                      Some {| PointsResponse.forecast := None |} |});
     forecastEndpoint := fun _ _ => Rejected (ErrorObject (js "fetch failed")) |}.

Definition client : NWSAPIClient.t := WeatherService.apiClient.

Definition alertsUrl : jsstring := js "https://api.weather.gov/alerts?area=CA".

End Simulated.

(** ** MCP server: the two tool handlers *)

Module WeatherMCPServer.

Record TextContent := {
  type : jsstring;
  text : jsstring }.

Record ToolResult := { content : list TextContent }.

(** [{ content: [{ type: "text", text }] }] *)
Definition textResult (text : jsstring) : ToolResult :=
  {| content := [ {| type := js "text"; text := text |} ] |}.

(** The [catch] block of both handlers. *)
Definition errorResult (error : Thrown) : ToolResult :=
  let errorMessage :=
    match error with
    | Typed e => code e ++ js ": " ++ message e
    | Foreign _ => js "Unknown error occurred"
    end in
  textResult (js "Error: " ++ errorMessage).

(** The handler registered as "get-alerts". *)
Definition getAlertsHandler (network : Network) (state : jsstring) (w : World)
  : ToolResult * World :=
  match WeatherService.getAlerts network state w with
  | (Return result, w') => (textResult result, w')
  | (Throw error, w') => (errorResult error, w')
  end.

(** The handler registered as "get-forecast". *)
Definition getForecastHandler (network : Network) (latitude longitude : float) (w : World)
  : ToolResult * World :=
  match WeatherService.getForecast network latitude longitude w with
  | (Return result, w') => (textResult result, w')
  | (Throw error, w') => (errorResult error, w')
  end.

End WeatherMCPServer.

(** ** Vocabulary of the further properties *)

(** The time spent in [sleep] during a stretch of events, in milliseconds. *)
Fixpoint totalSlept (events : list Event) : Z :=
  match events with
  | [] => 0
  | Slept ms :: rest => ms + totalSlept rest
  | _ :: rest => totalSlept rest
  end.

(** [status >= 500 || status === 429] *)
Definition retryableStatus (status : Z) : bool := (500 <=? status) || (status =? 429).

(** The answers after which an attempt that is not the last one goes on to
    the next: no response, a 2xx response whose body does not parse, or a
    response with a retryable status. *)
Definition failsRetryably {T : Set} (answer : FetchResult T) : bool :=
  match answer with
  | Rejected _ => true
  | Resolved response =>
      if Response.ok response then
        match Response.json response with
        | Unparsable _ => true
        | Parsed _ => false
        end
      else retryableStatus (Response.status response)
  end.

(** The error of the last attempt, when its answer is [answer]. *)
Definition IsLastError {T : Set} (answer : FetchResult T) (e : WeatherServiceError) : Prop :=
  match answer with
  | Rejected f => e = networkError f
  | Resolved response =>
      if Response.ok response then
        exists f, Response.json response = Unparsable f /\ e = networkError f
      else e = apiRequestFailed response (retryableStatus (Response.status response))
  end.

(** The two shapes of the errors a request throws. *)
Definition Classified (e : WeatherServiceError) : Prop :=
  (code e = js "NETWORK_ERROR" /\ statusCode e = None /\ retryable e = true)
  \/ (code e = js "API_REQUEST_FAILED"
      /\ exists status,
           statusCode e = Some status
           /\ (status < 200 \/ 299 < status)
           /\ retryable e = retryableStatus status).

(** A coordinate is in range when it lies between the bounds as binary64
    numbers. *)
Definition withinRange (low high x : float) : bool :=
  PrimFloat.leb low x && PrimFloat.leb x high.

(** The code units whose upper-case form is one capital ASCII letter: the
    ASCII letters, U+0131 (dotless i) and U+017F (long s). *)
Definition upperCasesToCapital (u : Z) : bool :=
  isAsciiLetter u || (u =? 0x131) || (u =? 0x17F).

(** That capital letter. *)
Definition capitalOf (u : Z) : Z :=
  if u =? 0x131 then 73 else if u =? 0x17F then 83 else asciiUpper u.

(** The code units of the upper-case form of one code point. *)
Definition upperUnits (cp : Z) : jsstring := flat_map codeUnits (upperCodePoint cp).

(** [p] holds of the [count] integers from [u] on. *)
Fixpoint allFrom (count : nat) (u : Z) (p : Z -> bool) : bool :=
  match count with
  | O => true
  | S count' => p u && allFrom count' (u + 1) p
  end.

(** An entry of [upperSpecial]: a key in the Basic Multilingual Plane that
    is not one of the units above, with an image of several code points. *)
Definition specialEntryChecked (entry : Z * list Z) : bool :=
  let '(key, image) := entry in
  (key <? 0x10000) && negb (upperCasesToCapital key) && (2 <=? len image).

(** An entry of [upperRanges]: its images avoid the capitals A to Z, or all
    its code points are among the units above. *)
Definition rangeEntryChecked (entry : Z * Z * Z * Z) : bool :=
  let '(first, last, stride, offset) := entry in
  (last + offset <? 65) || (90 <? first + offset)
  || allFrom (Z.to_nat (last - first + 1)) first upperCasesToCapital.

(** A unit above has the one-unit upper-case form [capitalOf]. *)
Definition capitalChecked (u : Z) : bool :=
  if upperCasesToCapital u
  then if list_eq_dec Z.eq_dec (upperUnits u) [capitalOf u] then true else false
  else true.

(** Upstreams for the further properties. *)
Module SimulatedMore.

(** No network at all. *)
Definition unreachable : Upstream AlertsResponse.t :=
  fun _ _ => Rejected (ErrorObject (js "fetch failed")).

(** HTTP 429 on every request. *)
Definition rateLimited : Upstream AlertsResponse.t :=
  fun _ _ => Simulated.respond 429 (js "Too Many Requests") Simulated.htmlBody.

(** No response once, then 200 with a JSON body. *)
Definition droppedOnce : Upstream AlertsResponse.t :=
  fun sentBefore _ =>
    match sentBefore with
    | 0%nat => Rejected (ErrorObject (js "fetch failed"))
    | _ => Simulated.respond 200 (js "OK") (Parsed Simulated.noAlerts)
    end.

(** HTTP 403 on every request. *)
Definition forbidden : Upstream AlertsResponse.t :=
  fun _ _ => Simulated.respond 403 (js "Forbidden") Simulated.htmlBody.

Definition forecastUrl : jsstring :=
  js "https://api.weather.gov/gridpoints/OKX/33,35/forecast".

Definition tonight : ForecastPeriod.t :=
  {| ForecastPeriod.name := Some (js "Tonight");
     ForecastPeriod.temperature := Some 72%float;
     ForecastPeriod.temperatureUnit := Some (js "F");
     ForecastPeriod.windSpeed := Some (js "5 mph");
     ForecastPeriod.windDirection := Some (js "NW");
     ForecastPeriod.shortForecast := Some (js "Clear") |}.

Definition gridPoint : PointsResponse.t :=
  {| PointsResponse.properties := Some {| PointsResponse.forecast := Some forecastUrl |} |}.

Definition forecast : ForecastResponse.t :=
  {| ForecastResponse.properties :=
       Some {| ForecastResponse.periods := Some [tonight] |} |}.

(** Every endpoint answers 200 with a JSON body at once. *)
Definition healthy : Network :=
  {| alertsEndpoint := fun _ _ => Simulated.respond 200 (js "OK") (Parsed Simulated.noAlerts);
     pointsEndpoint := fun _ _ => Simulated.respond 200 (js "OK") (Parsed gridPoint);
     forecastEndpoint := fun _ _ => Simulated.respond 200 (js "OK") (Parsed forecast) |}.

End SimulatedMore.

(** * Properties *)


(** ** The retry loop *)

Lemma fetchCount_app (w v : World) : fetchCount (w ++ v) = (fetchCount w + fetchCount v)%nat.
Proof. unfold fetchCount. rewrite filter_app, length_app. reflexivity. Qed.

Lemma fetchCount_fetched (w : World) (r : Request.t) :
  fetchCount (w ++ [Fetched r]) = S (fetchCount w).
Proof. unfold fetchCount. rewrite filter_app, length_app. simpl. lia. Qed.

Section RetryLoop.

Context {T : Set}.
Variable upstream : Upstream T.
Variable this : NWSAPIClient.t.
Variable url : jsstring.
Variable retries : Z.

#[local] Abbreviation request := (NWSAPIClient.request this url).
#[local] Abbreviation attemptOnce := (NWSAPIClient.attemptOnce upstream this url retries).
#[local] Abbreviation attemptsFrom := (NWSAPIClient.attemptsFrom upstream this url retries).

Lemma fetchCount_warnAndSleep (attempt : Z) (w : World) :
  fetchCount (NWSAPIClient.warnAndSleep attempt w) = fetchCount w.
Proof.
  unfold NWSAPIClient.warnAndSleep, sleep, consoleWarn, fetchCount.
  rewrite !filter_app, !length_app. simpl. lia.
Qed.

(** The loop, one iteration at a time. *)
Lemma attemptsFrom_unfold (attempt : Z) (w : World) :
  attemptsFrom attempt w =
  if attempt <=? retries then
    match attemptOnce attempt w with
    | (NWSAPIClient.Returns payload, w') => (Return payload, w')
    | (NWSAPIClient.Throws error, w') => (Throw error, w')
    | (NWSAPIClient.NextAttempt, w') => attemptsFrom (attempt + 1) w'
    end
  else
    (Throw (Typed (newWeatherServiceError (js "Max retries exceeded")
                     (js "MAX_RETRIES_EXCEEDED") None false)), w).
Proof.
  rewrite NWSAPIClient.attemptsFrom_equation_1.
  destruct (Z_le_gt_dec attempt retries) as [Hle | Hgt]; cbn;
    destruct (Z.leb_spec attempt retries); try lia; reflexivity.
Qed.


(** The world only grows during a request, and every request sent is the
    same one. *)
Lemma attemptOnce_trace (attempt : Z) (w : World) :
  exists events,
    snd (attemptOnce attempt w) = w ++ Fetched request :: events
    /\ Forall (OwnEvent request) events.
Proof.
  unfold NWSAPIClient.attemptOnce, NWSAPIClient.tryBlock,
    NWSAPIClient.catchBlock, NWSAPIClient.warnAndSleep, sleep, consoleWarn.
  destruct (upstream (fetchCount w) request) as [f | r].
  - destruct (attempt =? retries); cbn [snd]; rewrite <- ?app_assoc;
      eexists; (split; [reflexivity | repeat constructor]).
  - destruct (negb (Response.ok r)).
    + destruct (attempt =? retries);
        [| destruct ((500 <=? Response.status r) || (Response.status r =? 429))];
        cbn [snd]; rewrite <- ?app_assoc;
        eexists; (split; [reflexivity | repeat constructor]).
    + destruct (Response.json r) as [p | f]; [| destruct (attempt =? retries)];
        cbn [snd]; rewrite <- ?app_assoc;
        eexists; (split; [reflexivity | repeat constructor]).
Qed.

Lemma attemptsFrom_trace (n : nat) :
  forall attempt w, Z.to_nat (retries + 1 - attempt) = n ->
    exists events,
      snd (attemptsFrom attempt w) = w ++ events /\ Forall (OwnEvent request) events
      /\ (attempt <= retries -> exists rest, events = Fetched request :: rest).
Proof.
  induction n as [| n IH]; intros attempt w Hn; rewrite attemptsFrom_unfold.
  - destruct (Z.leb_spec attempt retries); [lia |].
    exists []. cbn [snd]. rewrite app_nil_r. repeat split; [constructor | lia].
  - destruct (Z.leb_spec attempt retries); [| lia].
    destruct (attemptOnce_trace attempt w) as (events & Hw & Hown).
    destruct (attemptOnce attempt w) as [[payload | error |] w1]; cbn [snd] in Hw |- *;
      subst w1.
    1, 2: exists (Fetched request :: events); repeat split;
          [constructor; [reflexivity | assumption] | eauto].
    destruct (IH (attempt + 1) (w ++ Fetched request :: events) ltac:(lia))
      as (more & Hw & Hmore & _).
    exists ((Fetched request :: events) ++ more). rewrite Hw, <- app_assoc.
    repeat split.
    + apply Forall_app. split; [constructor; [reflexivity | assumption] | assumption].
    + intros _. eexists. reflexivity.
Qed.

(** One attempt that gets a response. *)
Lemma attemptOnce_resolved (attempt : Z) (w : World) (r : Response.t T) :
  upstream (fetchCount w) request = Resolved r ->
  attemptOnce attempt w =
  let w1 := w ++ [Fetched request] in
  if Response.ok r then
    match Response.json r with
    | Parsed payload => (NWSAPIClient.Returns payload, w1)
    | Unparsable f =>
        if attempt =? retries then (NWSAPIClient.Throws (Typed (networkError f)), w1)
        else (NWSAPIClient.NextAttempt, NWSAPIClient.warnAndSleep attempt w1)
    end
  else
    let isRetryable := (500 <=? Response.status r) || (Response.status r =? 429) in
    if attempt =? retries then
      (NWSAPIClient.Throws (Typed (apiRequestFailed r isRetryable)), w1)
    else if isRetryable then (NWSAPIClient.NextAttempt, NWSAPIClient.warnAndSleep attempt w1)
    else (NWSAPIClient.Throws (Typed (apiRequestFailed r false)), w1).
Proof.
  intros H.
  unfold NWSAPIClient.attemptOnce, NWSAPIClient.tryBlock,
    NWSAPIClient.catchBlock.
  rewrite H. cbv zeta.
  destruct (Response.ok r); cbn [negb].
  - destruct (Response.json r); [reflexivity |].
    destruct (attempt =? retries); reflexivity.
  - destruct (attempt =? retries); [reflexivity |].
    destruct ((500 <=? Response.status r) || (Response.status r =? 429)); reflexivity.
Qed.

(** One attempt that gets no response at all. *)
Lemma attemptOnce_rejected (attempt : Z) (w : World) (f : Failure) :
  upstream (fetchCount w) request = Rejected f ->
  attemptOnce attempt w =
  let w1 := w ++ [Fetched request] in
  if attempt =? retries then (NWSAPIClient.Throws (Typed (networkError f)), w1)
  else (NWSAPIClient.NextAttempt, NWSAPIClient.warnAndSleep attempt w1).
Proof.
  intros H.
  unfold NWSAPIClient.attemptOnce, NWSAPIClient.tryBlock,
    NWSAPIClient.catchBlock.
  rewrite H. reflexivity.
Qed.

Lemma overloaded_not_ok (r : Response.t T) :
  Response.status r = 503 -> Response.ok r = false.
Proof. unfold Response.ok. intros ->. reflexivity. Qed.

(** C1.  Against an upstream that answers HTTP 503 to the first two attempts
    and a 2xx response with a JSON body to the third, a request allowed at
    least three attempts returns the parsed payload after exactly three
    requests and exactly two delays of [CONFIG.RETRY_DELAY] = 1000 ms. *)
Theorem makeRequest_succeeds_on_third_attempt
    (w : World) (r1 r2 r3 : Response.t T) (payload : T) :
  3 <= retries ->
  upstream (fetchCount w) request = Resolved r1 -> Response.status r1 = 503 ->
  upstream (S (fetchCount w)) request = Resolved r2 -> Response.status r2 = 503 ->
  upstream (S (S (fetchCount w))) request = Resolved r3 ->
  Response.ok r3 = true -> Response.json r3 = Parsed payload ->
  exists events,
    NWSAPIClient.makeRequest upstream this url retries w = (Return payload, w ++ events)
    /\ events =
         [ Fetched request; Warned (NWSAPIClient.retryWarning 1); Slept 1000;
           Fetched request; Warned (NWSAPIClient.retryWarning 2); Slept 1000;
           Fetched request ]
    /\ fetchCount events = 3%nat
    /\ filter isSlept events = [Slept CONFIG.RETRY_DELAY; Slept CONFIG.RETRY_DELAY].
Proof.
  intros Hretries H1 S1 H2 S2 H3 Ok3 J3.
  eexists. split; [| split; [reflexivity | split; reflexivity]].
  unfold NWSAPIClient.makeRequest.
  rewrite attemptsFrom_unfold, (attemptOnce_resolved _ _ _ H1).
  rewrite (overloaded_not_ok _ S1), S1. cbv zeta.
  destruct (Z.leb_spec 1 retries); [| lia].
  destruct (Z.eqb_spec 1 retries); [lia |].
  change ((500 <=? 503) || (503 =? 429)) with true. cbv iota.
  rewrite attemptsFrom_unfold.
  rewrite (attemptOnce_resolved (1 + 1) _ r2)
    by (rewrite fetchCount_warnAndSleep, fetchCount_fetched; exact H2).
  rewrite (overloaded_not_ok _ S2), S2. cbv zeta.
  destruct (Z.leb_spec (1 + 1) retries); [| lia].
  destruct (Z.eqb_spec (1 + 1) retries); [lia |].
  change ((500 <=? 503) || (503 =? 429)) with true. cbv iota.
  rewrite attemptsFrom_unfold.
  rewrite (attemptOnce_resolved (1 + 1 + 1) _ r3)
    by (rewrite ?fetchCount_warnAndSleep, ?fetchCount_fetched, ?fetchCount_warnAndSleep,
          ?fetchCount_fetched; exact H3).
  rewrite Ok3, J3. cbv zeta.
  destruct (Z.leb_spec (1 + 1 + 1) retries); [| lia].
  unfold NWSAPIClient.warnAndSleep, sleep, consoleWarn.
  rewrite <- !app_assoc. reflexivity.
Qed.


(** C2.  Against an upstream that answers HTTP 404, the request fails on its
    first attempt with API_REQUEST_FAILED, status 404 and retryable = false;
    the only event is the one request: no delay, no second attempt. *)
Theorem makeRequest_fails_at_once_on_404 (w : World) (r : Response.t T) :
  1 <= retries ->
  upstream (fetchCount w) request = Resolved r -> Response.status r = 404 ->
  NWSAPIClient.makeRequest upstream this url retries w =
    (Throw (Typed (newWeatherServiceError
                     (js "HTTP 404: " ++ Response.statusText r)
                     (js "API_REQUEST_FAILED") (Some 404) false)),
     w ++ [Fetched request]).
Proof.
  intros Hretries H Hs.
  unfold NWSAPIClient.makeRequest.
  rewrite attemptsFrom_unfold, (attemptOnce_resolved _ _ _ H).
  destruct (Z.leb_spec 1 retries); [| lia].
  unfold Response.ok, apiRequestFailed. rewrite Hs. cbv zeta.
  change ((200 <=? 404) && (404 <=? 299)) with false.
  change ((500 <=? 404) || (404 =? 429)) with false. cbv iota.
  destruct (1 =? retries); reflexivity.
Qed.

(** C3, as amended.  When an attempt gets a 2xx response, the body is parsed
    and the payload returned; when parsing fails, the last attempt throws
    NETWORK_ERROR (retryable, without status), and an earlier attempt logs
    the warning, sleeps [CONFIG.RETRY_DELAY] and goes on with the next
    attempt.  [makeRequest] is the loop started at attempt 1. *)
Theorem attempt_with_2xx_response (attempt : Z) (w : World) (r : Response.t T) :
  attempt <= retries ->
  upstream (fetchCount w) request = Resolved r -> Response.ok r = true ->
  match Response.json r with
  | Parsed payload =>
      attemptsFrom attempt w = (Return payload, w ++ [Fetched request])
  | Unparsable f =>
      (attempt = retries ->
       attemptsFrom attempt w =
         (Throw (Typed (newWeatherServiceError (js "Network error: " ++ messageOf f)
                          (js "NETWORK_ERROR") None true)),
          w ++ [Fetched request]))
      /\ (attempt < retries ->
          attemptsFrom attempt w =
            attemptsFrom (attempt + 1)
              (w ++ [Fetched request; Warned (NWSAPIClient.retryWarning attempt);
                     Slept CONFIG.RETRY_DELAY]))
  end.
Proof.
  intros Hle H Hok.
  pose proof (attemptsFrom_unfold attempt w) as Hloop.
  rewrite (attemptOnce_resolved _ _ _ H), Hok in Hloop. cbv zeta in Hloop.
  destruct (Z.leb_spec attempt retries); [| lia].
  destruct (Response.json r) as [payload | f]; [exact Hloop |].
  split; intros Hattempt.
  - destruct (Z.eqb_spec attempt retries); [exact Hloop | lia].
  - destruct (Z.eqb_spec attempt retries); [lia |].
    rewrite Hloop. unfold NWSAPIClient.warnAndSleep, sleep, consoleWarn.
    rewrite <- !app_assoc. reflexivity.
Qed.

(** How one attempt can end: the last one never asks for another. *)
Lemma attemptOnce_cases (attempt : Z) (w : World) :
  match attemptOnce attempt w with
  | (NWSAPIClient.Returns _, _) => True
  | (NWSAPIClient.Throws (Typed e), _) =>
      code e = js "API_REQUEST_FAILED" \/ code e = js "NETWORK_ERROR"
  | (NWSAPIClient.Throws (Foreign _), _) => False
  | (NWSAPIClient.NextAttempt, _) => attempt <> retries
  end.
Proof.
  destruct (upstream (fetchCount w) request) as [f | r] eqn:H.
  - rewrite (attemptOnce_rejected _ _ _ H). cbv zeta.
    destruct (Z.eqb_spec attempt retries); [right; reflexivity | assumption].
  - rewrite (attemptOnce_resolved _ _ _ H). cbv zeta.
    destruct (Response.ok r).
    + destruct (Response.json r); [exact I |].
      destruct (Z.eqb_spec attempt retries); [right; reflexivity | assumption].
    + destruct (Z.eqb_spec attempt retries); [left; reflexivity |].
      destruct ((500 <=? Response.status r) || (Response.status r =? 429));
        [assumption | left; reflexivity].
Qed.

Lemma attemptsFrom_cases (n : nat) :
  forall attempt w, attempt <= retries -> Z.to_nat (retries - attempt) = n ->
    match attemptsFrom attempt w with
    | (Return _, _) => True
    | (Throw (Typed e), _) =>
        code e = js "API_REQUEST_FAILED" \/ code e = js "NETWORK_ERROR"
    | (Throw (Foreign _), _) => False
    end.
Proof.
  induction n as [| n IH]; intros attempt w Hle Hn;
    rewrite attemptsFrom_unfold;
    (destruct (Z.leb_spec attempt retries); [| lia]);
    pose proof (attemptOnce_cases attempt w) as Hcases;
    destruct (attemptOnce attempt w) as [[payload | [e | f] |] w']; try assumption.
  - lia.
  - apply IH; lia.
Qed.

(** C4.  With at least one attempt allowed, the request either returns a
    payload or throws a [WeatherServiceError] raised inside the loop
    (API_REQUEST_FAILED or NETWORK_ERROR); it never reaches the [throw] after
    the loop, so it never fails with MAX_RETRIES_EXCEEDED. *)
Theorem makeRequest_never_exceeds_max_retries (w : World) :
  1 <= retries ->
  (exists payload w',
      NWSAPIClient.makeRequest upstream this url retries w = (Return payload, w'))
  \/ (exists e w',
        NWSAPIClient.makeRequest upstream this url retries w = (Throw (Typed e), w')
        /\ (code e = js "API_REQUEST_FAILED" \/ code e = js "NETWORK_ERROR")
        /\ code e <> js "MAX_RETRIES_EXCEEDED").
Proof.
  intros Hretries.
  pose proof (attemptsFrom_cases _ 1 w Hretries eq_refl) as Hcases.
  unfold NWSAPIClient.makeRequest.
  destruct (attemptsFrom 1 w) as [[payload | [e | f]] w'].
  - left. eauto.
  - right. exists e, w'. split; [reflexivity | split; [assumption |]].
    destruct Hcases as [-> | ->]; discriminate.
  - contradiction.
Qed.

End RetryLoop.

Lemma three_attempts_configured : 3 <= CONFIG.MAX_RETRIES.
Proof. unfold CONFIG.MAX_RETRIES. lia. Qed.

Lemma one_attempt_configured : 1 <= CONFIG.MAX_RETRIES.
Proof. unfold CONFIG.MAX_RETRIES. lia. Qed.

(** C1 at [Simulated.overloadedTwice], from the empty world, with the
    configured three attempts. *)
Lemma makeRequest_succeeds_on_third_attempt_witness :
  exists events,
    NWSAPIClient.makeRequest Simulated.overloadedTwice Simulated.client
      Simulated.alertsUrl CONFIG.MAX_RETRIES [] = (Return Simulated.noAlerts, [] ++ events)
    /\ events =
         [ Fetched (NWSAPIClient.request Simulated.client Simulated.alertsUrl);
           Warned (NWSAPIClient.retryWarning 1); Slept 1000;
           Fetched (NWSAPIClient.request Simulated.client Simulated.alertsUrl);
           Warned (NWSAPIClient.retryWarning 2); Slept 1000;
           Fetched (NWSAPIClient.request Simulated.client Simulated.alertsUrl) ]
    /\ fetchCount events = 3%nat
    /\ filter isSlept events = [Slept CONFIG.RETRY_DELAY; Slept CONFIG.RETRY_DELAY].
Proof.
  eapply (makeRequest_succeeds_on_third_attempt Simulated.overloadedTwice
            Simulated.client Simulated.alertsUrl CONFIG.MAX_RETRIES []);
    [exact three_attempts_configured | reflexivity ..].
Defined.

(** C2 at [Simulated.notFound]. *)
Lemma makeRequest_fails_at_once_on_404_witness :
  NWSAPIClient.makeRequest Simulated.notFound Simulated.client Simulated.alertsUrl
    CONFIG.MAX_RETRIES [] =
    (Throw (Typed (newWeatherServiceError (js "HTTP 404: Not Found")
                     (js "API_REQUEST_FAILED") (Some 404) false)),
     [Fetched (NWSAPIClient.request Simulated.client Simulated.alertsUrl)]).
Proof.
  exact (makeRequest_fails_at_once_on_404 Simulated.notFound Simulated.client
           Simulated.alertsUrl CONFIG.MAX_RETRIES []
           {| Response.status := 404; Response.statusText := js "Not Found";
              Response.json := Simulated.htmlBody |}
           one_attempt_configured eq_refl eq_refl).
Defined.

(** C3 as stated fails: a 2xx response whose body is not JSON, received on
    the first of three attempts, does not surface as NETWORK_ERROR.  When
    the second attempt succeeds the request returns its payload, and when
    the second attempt gets HTTP 404 the request fails with
    API_REQUEST_FAILED. *)
Lemma parse_failure_before_last_attempt_is_retried :
  (exists r f,
      Simulated.garbledOnce 0%nat (NWSAPIClient.request Simulated.client Simulated.alertsUrl)
        = Resolved r
      /\ Response.ok r = true /\ Response.json r = Unparsable f)
  /\ NWSAPIClient.makeRequest Simulated.garbledOnce Simulated.client Simulated.alertsUrl
       CONFIG.MAX_RETRIES [] =
       (Return Simulated.noAlerts,
        [ Fetched (NWSAPIClient.request Simulated.client Simulated.alertsUrl);
          Warned (NWSAPIClient.retryWarning 1); Slept 1000;
          Fetched (NWSAPIClient.request Simulated.client Simulated.alertsUrl) ])
  /\ fst (NWSAPIClient.makeRequest Simulated.garbledThenNotFound Simulated.client
            Simulated.alertsUrl CONFIG.MAX_RETRIES []) =
       Throw (Typed (newWeatherServiceError (js "HTTP 404: Not Found")
                       (js "API_REQUEST_FAILED") (Some 404) false)).
Proof.
  split; [| split].
  - eexists _, _. repeat split.
  - vm_compute. reflexivity.
  - vm_compute. reflexivity.
Qed.

(** C3, as amended, at [Simulated.garbledOnce]: the first attempt goes on to
    the second, which returns the payload. *)
Lemma attempt_with_2xx_response_witness :
  NWSAPIClient.attemptsFrom Simulated.garbledOnce Simulated.client Simulated.alertsUrl
    CONFIG.MAX_RETRIES 1 [] =
  NWSAPIClient.attemptsFrom Simulated.garbledOnce Simulated.client Simulated.alertsUrl
    CONFIG.MAX_RETRIES (1 + 1)
    [ Fetched (NWSAPIClient.request Simulated.client Simulated.alertsUrl);
      Warned (NWSAPIClient.retryWarning 1); Slept CONFIG.RETRY_DELAY ].
Proof.
  refine (proj2 (attempt_with_2xx_response Simulated.garbledOnce Simulated.client
                   Simulated.alertsUrl CONFIG.MAX_RETRIES 1 []
                   {| Response.status := 200; Response.statusText := js "OK";
                      Response.json := Simulated.htmlBody |}
                   one_attempt_configured eq_refl eq_refl) _).
  reflexivity.
Defined.

(** C4 at [Simulated.notFound]. *)
Lemma makeRequest_never_exceeds_max_retries_witness :
  (exists payload w',
      NWSAPIClient.makeRequest Simulated.notFound Simulated.client Simulated.alertsUrl
        CONFIG.MAX_RETRIES [] = (Return payload, w'))
  \/ (exists e w',
        NWSAPIClient.makeRequest Simulated.notFound Simulated.client Simulated.alertsUrl
          CONFIG.MAX_RETRIES [] = (Throw (Typed e), w')
        /\ (code e = js "API_REQUEST_FAILED" \/ code e = js "NETWORK_ERROR")
        /\ code e <> js "MAX_RETRIES_EXCEEDED").
Proof.
  exact (makeRequest_never_exceeds_max_retries Simulated.notFound Simulated.client
           Simulated.alertsUrl CONFIG.MAX_RETRIES [] one_attempt_configured).
Defined.


(** ** The service *)

(** A request allowed at least one attempt starts by sending its request,
    and adds only events of its own. *)
Lemma makeRequest_trace {T : Set} (upstream : Upstream T) (this : NWSAPIClient.t)
    (url : jsstring) (retries : Z) (w : World) :
  1 <= retries ->
  exists rest,
    snd (NWSAPIClient.makeRequest upstream this url retries w)
      = w ++ Fetched (NWSAPIClient.request this url) :: rest
    /\ Forall (OwnEvent (NWSAPIClient.request this url)) rest.
Proof.
  intros Hretries.
  destruct (attemptsFrom_trace upstream this url retries _ 1 w eq_refl)
    as (events & Hw & Hown & Hfirst).
  destruct (Hfirst Hretries) as (rest & ->).
  exists rest. split; [exact Hw |]. inversion Hown; assumption.
Qed.

Section Service.

Variable network : Network.

#[local] Abbreviation gridPointUrl latitude longitude :=
  (CONFIG.NWS_API_BASE ++ js "/points/" ++ formatCoordinates latitude longitude).

(** C5.  When the coordinates are valid and the grid-point request returns
    a payload without a forecast URL, [getForecast] fails with
    FORECAST_URL_MISSING (not retryable) in the world the grid-point call
    left: every request sent went to the grid-point URL, and the forecast
    request was never attempted. *)
Theorem getForecast_without_forecast_url
    (latitude longitude : float) (w w' : World) (pointsData : PointsResponse.t) :
  validateCoordinates latitude longitude = Return tt ->
  NWSAPIClient.getGridPoint (pointsEndpoint network) WeatherService.apiClient
    latitude longitude w = (Return pointsData, w') ->
  lacksForecastUrl pointsData = true ->
  WeatherService.getForecast network latitude longitude w =
    (Throw (Typed (newWeatherServiceError
                     (js "Failed to get forecast URL from grid point data")
                     (js "FORECAST_URL_MISSING") None false)), w')
  /\ exists events,
       w' = w ++ events
       /\ Forall (fun e => forall r, e = Fetched r ->
                    Request.url r = gridPointUrl latitude longitude) events.
Proof.
  intros Hvalid Hgrid Hlacks. split.
  - unfold WeatherService.getForecast, tryCatch, bind, lift.
    rewrite Hvalid, Hgrid.
    unfold lacksForecastUrl in Hlacks.
    destruct (WeatherService.forecastUrlOf pointsData) as [forecastUrl |];
      [rewrite Hlacks |]; reflexivity.
  - unfold NWSAPIClient.getGridPoint in Hgrid.
    destruct (makeRequest_trace (pointsEndpoint network) WeatherService.apiClient
                (gridPointUrl latitude longitude) CONFIG.MAX_RETRIES w
                one_attempt_configured) as (rest & Hw & Hown).
    change (NWSAPIClient.baseUrl WeatherService.apiClient) with CONFIG.NWS_API_BASE in Hgrid.
    rewrite Hgrid in Hw. cbn [snd] in Hw.
    eexists. split; [exact Hw |].
    constructor.
    + intros r [= <-]. reflexivity.
    + eapply Forall_impl; [| exact Hown].
      intros e He r ->. cbn in He. rewrite He. reflexivity.
Qed.

(** The state codes "ca" and "CA" validate to the same code. *)
Lemma validateStateCode_ca : validateStateCode (js "ca") = Return (js "CA").
Proof. vm_compute. reflexivity. Qed.

Lemma validateStateCode_CA : validateStateCode (js "CA") = Return (js "CA").
Proof. vm_compute. reflexivity. Qed.

(** C8.  From the same world and against the same upstream, [getAlerts]
    on "ca" and on "CA" have the same outcome (the same text or the same
    error) and leave the same world, hence sent the same requests; the
    first of them is the request for [/alerts?area=CA] with the two
    headers. *)
Theorem getAlerts_ca_and_CA_agree (w : World) :
  WeatherService.getAlerts network (js "ca") w = WeatherService.getAlerts network (js "CA") w
  /\ exists rest,
       snd (WeatherService.getAlerts network (js "CA") w) =
         w ++ Fetched {| Request.url := js "https://api.weather.gov/alerts?area=CA";
                         Request.headers :=
                           [ (js "User-Agent", js "weather-app/1.0");
                             (js "Accept", js "application/geo+json") ] |} :: rest.
Proof.
  unfold WeatherService.getAlerts, tryCatch, bind, lift.
  rewrite validateStateCode_ca, validateStateCode_CA.
  split; [reflexivity |].
  unfold NWSAPIClient.getAlerts.
  destruct (makeRequest_trace (alertsEndpoint network) WeatherService.apiClient
              (js "https://api.weather.gov/alerts?area=CA") CONFIG.MAX_RETRIES w
              one_attempt_configured) as (rest & Hw & _).
  exists rest.
  change (NWSAPIClient.baseUrl WeatherService.apiClient ++ js "/alerts?area=" ++ js "CA")
    with (js "https://api.weather.gov/alerts?area=CA").
  destruct (NWSAPIClient.makeRequest (alertsEndpoint network) WeatherService.apiClient
              (js "https://api.weather.gov/alerts?area=CA") CONFIG.MAX_RETRIES w)
    as [[alertsData | [e | f]] w1]; cbn [snd] in Hw |- *; exact Hw.
Qed.

(** The forecast for coordinates that pass validation starts with the
    grid-point request. *)
Lemma getForecast_first_request (latitude longitude : float) (w : World) :
  validateCoordinates latitude longitude = Return tt ->
  exists rest,
    snd (WeatherService.getForecast network latitude longitude w) =
      w ++ Fetched (NWSAPIClient.request WeatherService.apiClient
                      (gridPointUrl latitude longitude)) :: rest.
Proof.
  intros Hvalid.
  unfold WeatherService.getForecast, tryCatch, bind, lift.
  rewrite Hvalid. unfold NWSAPIClient.getGridPoint.
  change (NWSAPIClient.baseUrl WeatherService.apiClient) with CONFIG.NWS_API_BASE.
  destruct (makeRequest_trace (pointsEndpoint network) WeatherService.apiClient
              (gridPointUrl latitude longitude) CONFIG.MAX_RETRIES w
              one_attempt_configured) as (rest & Hw & _).
  destruct (NWSAPIClient.makeRequest (pointsEndpoint network) WeatherService.apiClient
              (gridPointUrl latitude longitude) CONFIG.MAX_RETRIES w)
    as [[pointsData | error] w1]; cbn [snd] in Hw; subst w1.
  - destruct (WeatherService.forecastUrlOf pointsData) as [forecastUrl |].
    + destruct (truthyString forecastUrl); cbn [negb].
      * unfold NWSAPIClient.getForecast.
        destruct (makeRequest_trace (forecastEndpoint network) WeatherService.apiClient
                    forecastUrl CONFIG.MAX_RETRIES
                    (w ++ Fetched (NWSAPIClient.request WeatherService.apiClient
                                     (gridPointUrl latitude longitude)) :: rest)
                    one_attempt_configured) as (more & Hw & _).
        destruct (NWSAPIClient.makeRequest (forecastEndpoint network)
                    WeatherService.apiClient forecastUrl CONFIG.MAX_RETRIES _)
          as [[forecastData | [e | f]] w2]; cbn [snd] in Hw |- *; subst w2;
          rewrite <- app_assoc; cbn [app]; eexists; reflexivity.
      * eexists. reflexivity.
    + eexists. reflexivity.
  - destruct error as [e | f]; eexists; reflexivity.
Qed.

End Service.

(** C5 at [Simulated.gridPointWithoutForecast], for a point in New York. *)
Lemma getForecast_without_forecast_url_witness :
  WeatherService.getForecast Simulated.gridPointWithoutForecast 40.7128 (-74.006) [] =
    (Throw (Typed (newWeatherServiceError
                     (js "Failed to get forecast URL from grid point data")
                     (js "FORECAST_URL_MISSING") None false)),
     [Fetched (NWSAPIClient.request WeatherService.apiClient
                 (js "https://api.weather.gov/points/40.7128,-74.0060"))])
  /\ exists events,
       [Fetched (NWSAPIClient.request WeatherService.apiClient
                   (js "https://api.weather.gov/points/40.7128,-74.0060"))] = [] ++ events
       /\ Forall (fun e => forall r, e = Fetched r ->
                    Request.url r =
                      CONFIG.NWS_API_BASE ++ js "/points/" ++ formatCoordinates 40.7128 (-74.006))
            events.
Proof.
  refine (getForecast_without_forecast_url Simulated.gridPointWithoutForecast
            40.7128 (-74.006) [] _
            {| PointsResponse.properties := Some {| PointsResponse.forecast := None |} |}
            _ _ _).
  - vm_compute. reflexivity.
  - vm_compute. reflexivity.
  - reflexivity.
Defined.

(** C9.  A NaN coordinate passes its range check: a NaN latitude never
    raises INVALID_LATITUDE and a NaN longitude never raises
    INVALID_LONGITUDE (what remains is the check of the other coordinate);
    with both NaN, validation succeeds, the coordinates are formatted as
    "NaN,NaN", and [getForecast] sends the grid-point request for
    [/points/NaN,NaN]. *)
Theorem validateCoordinates_accepts_NaN :
  (forall longitude,
      validateCoordinates nan longitude =
        if PrimFloat.ltb longitude (-180) || PrimFloat.ltb 180 longitude
        then Throw (Typed (newWeatherServiceError
                             (js "Invalid longitude: " ++ NumberToString longitude
                              ++ js ". Must be between -180 and 180")
                             (js "INVALID_LONGITUDE") None false))
        else Return tt)
  /\ (forall latitude,
        validateCoordinates latitude nan =
          if PrimFloat.ltb latitude (-90) || PrimFloat.ltb 90 latitude
          then Throw (Typed (newWeatherServiceError
                               (js "Invalid latitude: " ++ NumberToString latitude
                                ++ js ". Must be between -90 and 90")
                               (js "INVALID_LATITUDE") None false))
          else Return tt)
  /\ validateCoordinates nan nan = Return tt
  /\ formatCoordinates nan nan = js "NaN,NaN"
  /\ forall network w, exists rest,
       snd (WeatherService.getForecast network nan nan w) =
         w ++ Fetched {| Request.url := js "https://api.weather.gov/points/NaN,NaN";
                         Request.headers :=
                           [ (js "User-Agent", js "weather-app/1.0");
                             (js "Accept", js "application/geo+json") ] |} :: rest.
Proof.
  split; [| split; [| split; [| split]]].
  - intros longitude. unfold validateCoordinates.
    change (PrimFloat.ltb nan (-90) || PrimFloat.ltb 90 nan) with false. reflexivity.
  - intros latitude. unfold validateCoordinates.
    change (PrimFloat.ltb nan (-180) || PrimFloat.ltb 180 nan) with false.
    destruct (PrimFloat.ltb latitude (-90) || PrimFloat.ltb 90 latitude); reflexivity.
  - reflexivity.
  - reflexivity.
  - intros network w.
    exact (getForecast_first_request network nan nan w eq_refl).
Qed.


(** ** The formatter *)

Lemma orString_absentIfEmpty (field : option jsstring) (fallback : jsstring) :
  orString (absentIfEmpty field) fallback = orString field fallback.
Proof. destruct field as [[| u s] |]; reflexivity. Qed.

Lemma numberOr_absentIfFalsy (field : option float) (fallback : jsstring) :
  WeatherDataFormatter.numberOr (absentIfFalsy field) fallback
  = WeatherDataFormatter.numberOr field fallback.
Proof.
  destruct field as [v |]; [| reflexivity].
  unfold absentIfFalsy, WeatherDataFormatter.numberOr.
  destruct (truthyNumber v) eqn:Hv; [rewrite Hv |]; reflexivity.
Qed.

(** C10.  The formatter treats a present but falsy member exactly as an
    absent one: replacing every empty string, and a temperature that is 0
    or NaN, by a missing member changes neither the text of a forecast
    period nor that of an alert.  A period with temperature 0 and empty
    strings renders "Unknown" and the other placeholders, and an alert with
    empty strings renders "Unknown" and "No headline". *)
Theorem placeholders_for_falsy_fields :
  (forall period,
      WeatherDataFormatter.formatForecastPeriod period
      = WeatherDataFormatter.formatForecastPeriod (withoutFalsyPeriodFields period))
  /\ (forall feature,
        WeatherDataFormatter.formatAlert feature
        = WeatherDataFormatter.formatAlert (withoutFalsyAlertFields feature))
  /\ WeatherDataFormatter.formatForecastPeriod
       {| ForecastPeriod.name := Some []; ForecastPeriod.temperature := Some 0%float;
          ForecastPeriod.temperatureUnit := Some []; ForecastPeriod.windSpeed := Some [];
          ForecastPeriod.windDirection := Some []; ForecastPeriod.shortForecast := Some [] |}
     = js "Unknown:" ++ WeatherDataFormatter.LF
       ++ js "Temperature: Unknown" ++ WeatherDataFormatter.degrees ++ js "F"
       ++ WeatherDataFormatter.LF
       ++ js "Wind: Unknown " ++ WeatherDataFormatter.LF
       ++ js "No forecast available" ++ WeatherDataFormatter.LF
       ++ js "---"
  /\ WeatherDataFormatter.formatAlert
       {| AlertFeature.properties :=
            {| AlertFeature.event := Some []; AlertFeature.areaDesc := Some [];
               AlertFeature.severity := Some []; AlertFeature.status := Some [];
               AlertFeature.headline := Some [] |} |}
     = js "Event: Unknown" ++ WeatherDataFormatter.LF
       ++ js "Area: Unknown" ++ WeatherDataFormatter.LF
       ++ js "Severity: Unknown" ++ WeatherDataFormatter.LF
       ++ js "Status: Unknown" ++ WeatherDataFormatter.LF
       ++ js "Headline: No headline" ++ WeatherDataFormatter.LF
       ++ js "---".
Proof.
  split; [| split; [| split]].
  - intros period.
    unfold WeatherDataFormatter.formatForecastPeriod, withoutFalsyPeriodFields.
    cbn [ForecastPeriod.name ForecastPeriod.temperature ForecastPeriod.temperatureUnit
         ForecastPeriod.windSpeed ForecastPeriod.windDirection
         ForecastPeriod.shortForecast].
    rewrite !orString_absentIfEmpty, numberOr_absentIfFalsy. reflexivity.
  - intros feature.
    unfold WeatherDataFormatter.formatAlert, withoutFalsyAlertFields.
    cbn [AlertFeature.properties AlertFeature.event AlertFeature.areaDesc
         AlertFeature.severity AlertFeature.status AlertFeature.headline].
    rewrite !orString_absentIfEmpty. reflexivity.
  - vm_compute. reflexivity.
  - vm_compute. reflexivity.
Qed.


(** ** State codes *)

(** On the 128 ASCII code points the Unicode upper-case conversion is the
    ASCII one. *)
Lemma upperCodePoint_below_128 :
  forallb (fun n => if list_eq_dec Z.eq_dec (upperCodePoint (Z.of_nat n))
                         [asciiUpper (Z.of_nat n)]
                    then true else false)
    (seq 0 128) = true.
Proof. vm_compute. reflexivity. Qed.

Lemma isAscii_bounds (u : Z) : isAscii u = true -> 0 <= u < 128.
Proof. unfold isAscii. lia. Qed.

Lemma upperCodePoint_ascii (u : Z) :
  isAscii u = true -> upperCodePoint u = [asciiUpper u].
Proof.
  intros Hu. apply isAscii_bounds in Hu.
  pose proof upperCodePoint_below_128 as Hall.
  rewrite forallb_forall in Hall.
  specialize (Hall (Z.to_nat u)).
  rewrite Z2Nat.id in Hall by lia.
  destruct (list_eq_dec Z.eq_dec (upperCodePoint u) [asciiUpper u]) as [Heq | Hne];
    [exact Heq |].
  assert (false = true); [| discriminate].
  apply Hall. apply in_seq. lia.
Qed.

Lemma asciiUpper_ascii (u : Z) : isAscii u = true -> isAscii (asciiUpper u) = true.
Proof. unfold isAscii, asciiUpper. destruct ((97 <=? u) && (u <=? 122)) eqn:H; lia. Qed.

Lemma codePoints_ascii (s : jsstring) :
  forallb isAscii s = true -> codePoints s = s.
Proof.
  induction s as [| hi rest IH]; [reflexivity |].
  cbn [forallb]. intros H. apply andb_prop in H. destruct H as [Hhi Hrest].
  cbn [codePoints]. destruct rest as [| lo rest']; [reflexivity |].
  replace (isHighSurrogate hi) with false
    by (apply isAscii_bounds in Hhi; unfold isHighSurrogate; lia).
  cbn [andb]. rewrite (IH Hrest). reflexivity.
Qed.

(** On ASCII input [toUpperCase] is the ASCII upper-casing, unit by unit. *)
Lemma toUpperCase_ascii (s : jsstring) :
  forallb isAscii s = true -> toUpperCase s = map asciiUpper s.
Proof.
  intros H. unfold toUpperCase. rewrite (codePoints_ascii _ H).
  induction s as [| u rest IH]; [reflexivity |].
  cbn [forallb] in H. apply andb_prop in H. destruct H as [Hu Hrest].
  cbn [flat_map map]. rewrite (upperCodePoint_ascii _ Hu). cbn [app flat_map].
  rewrite (IH Hrest).
  replace (codeUnits (asciiUpper u)) with [asciiUpper u]; [reflexivity |].
  apply asciiUpper_ascii, isAscii_bounds in Hu. unfold codeUnits.
  destruct (Z.ltb_spec (asciiUpper u) 0x10000); [reflexivity | lia].
Qed.

Lemma isCapital_asciiUpper (u : Z) : isCapital (asciiUpper u) = isAsciiLetter u.
Proof.
  unfold isCapital, asciiUpper, isAsciiLetter.
  destruct ((97 <=? u) && (u <=? 122)) eqn:H; lia.
Qed.

Lemma testTwoCapitals_asciiUpper (s : jsstring) :
  testTwoCapitals (map asciiUpper s) = twoAsciiLetters s.
Proof.
  destruct s as [| a [| b [| c rest]]]; try reflexivity.
  cbn [map testTwoCapitals twoAsciiLetters]. rewrite !isCapital_asciiUpper. reflexivity.
Qed.

(** C6 as stated fails: the one-character input U+00DF (sharp s), which is
    not a two-character string, is accepted, because its upper-case form is
    "SS". *)
Lemma validateStateCode_accepts_sharp_s :
  List.length [0xDF] = 1%nat /\ validateStateCode [0xDF] = Return (js "SS").
Proof. split; [reflexivity | vm_compute; reflexivity]. Qed.

(** C6, as amended.  [validateStateCode] returns the upper-case form of its
    input when that form is two capital ASCII letters, and fails with
    INVALID_STATE_CODE otherwise.  On input made of ASCII characters only:
    two letters in any case give the upper-cased two letters, and every
    other input fails. *)
Theorem validateStateCode_two_letters (state : jsstring) :
  validateStateCode state =
    (if testTwoCapitals (toUpperCase state) then Return (toUpperCase state)
     else Throw (Typed (invalidStateCode state)))
  /\ code (invalidStateCode state) = js "INVALID_STATE_CODE"
  /\ (forallb isAscii state = true ->
      validateStateCode state =
        if twoAsciiLetters state then Return (map asciiUpper state)
        else Throw (Typed (invalidStateCode state))).
Proof.
  assert (Hdef : validateStateCode state =
            if testTwoCapitals (toUpperCase state) then Return (toUpperCase state)
            else Throw (Typed (invalidStateCode state))).
  { unfold validateStateCode. destruct (testTwoCapitals (toUpperCase state)); reflexivity. }
  split; [exact Hdef | split; [reflexivity |]].
  intros Hascii. rewrite Hdef, (toUpperCase_ascii _ Hascii), testTwoCapitals_asciiUpper.
  reflexivity.
Qed.

(** C6, as amended, at "ca", "C1" and "CAL". *)
Lemma validateStateCode_two_letters_witness :
  validateStateCode (js "ca") = Return (js "CA")
  /\ validateStateCode (js "C1") = Throw (Typed (invalidStateCode (js "C1")))
  /\ validateStateCode (js "CAL") = Throw (Typed (invalidStateCode (js "CAL"))).
Proof.
  split; [| split].
  - exact (proj2 (proj2 (validateStateCode_two_letters (js "ca"))) eq_refl).
  - exact (proj2 (proj2 (validateStateCode_two_letters (js "C1"))) eq_refl).
  - exact (proj2 (proj2 (validateStateCode_two_letters (js "CAL"))) eq_refl).
Defined.


(** ** Coordinates *)

Lemma digitUnits_digits (d : Decimal.uint) : forallb isDigit (digitUnits d) = true.
Proof. induction d; cbn [digitUnits forallb]; try rewrite IHd; reflexivity. Qed.

Lemma decimalDigits_digits (n : Z) : forallb isDigit (decimalDigits n) = true.
Proof. apply digitUnits_digits. Qed.

Lemma zeros_digits (n : Z) : forallb isDigit (zeros n) = true.
Proof.
  unfold zeros. induction (Z.to_nat n) as [| k IH]; [reflexivity |].
  cbn [repeat forallb]. rewrite IH. reflexivity.
Qed.

Lemma forallb_firstn {A} (p : A -> bool) (n : nat) (l : list A) :
  forallb p l = true -> forallb p (firstn n l) = true.
Proof.
  revert l. induction n as [| n IH]; intros [| a l]; cbn; try reflexivity.
  intros H. apply andb_prop in H. destruct H as [-> H]. exact (IH l H).
Qed.

Lemma forallb_skipn {A} (p : A -> bool) (n : nat) (l : list A) :
  forallb p l = true -> forallb p (skipn n l) = true.
Proof.
  revert l. induction n as [| n IH]; intros [| a l]; cbn; try reflexivity.
  - intros H. exact H.
  - intros H. apply andb_prop in H. destruct H as [_ H]. exact (IH l H).
Qed.

(** Digits with more entries than [f], split before the last [f]. *)
Lemma split_last_digits (m : jsstring) (f : Z) :
  0 < f -> f < len m -> forallb isDigit m = true ->
  exists whole fraction,
    firstn (Z.to_nat (len m - f)) m ++ js "." ++ skipn (Z.to_nat (len m - f)) m
      = whole ++ js "." ++ fraction
    /\ whole <> []
    /\ forallb isDigit whole = true
    /\ forallb isDigit fraction = true
    /\ List.length fraction = Z.to_nat f.
Proof.
  intros Hf Hlen Hdigits. unfold len in *.
  exists (firstn (Z.to_nat (Z.of_nat (List.length m) - f)) m),
         (skipn (Z.to_nat (Z.of_nat (List.length m) - f)) m).
  split; [reflexivity |]. split; [| split; [| split]].
  - intros Hnil. apply (f_equal (@List.length Z)) in Hnil.
    rewrite length_firstn in Hnil. cbn in Hnil. lia.
  - apply forallb_firstn, Hdigits.
  - apply forallb_skipn, Hdigits.
  - rewrite length_skipn. lia.
Qed.

(** The fixed notation of a natural number scaled by [10^f]. *)
Lemma fixedDigits_shape (n f : Z) :
  0 < f ->
  exists whole fraction,
    fixedDigits n f = whole ++ js "." ++ fraction
    /\ whole <> []
    /\ forallb isDigit whole = true
    /\ forallb isDigit fraction = true
    /\ List.length fraction = Z.to_nat f.
Proof.
  intros Hf. unfold fixedDigits.
  destruct (Z.eqb_spec f 0); [lia |].
  destruct (Z.leb_spec (len (decimalDigits n)) f) as [Hshort | Hlong];
    apply split_last_digits; try assumption.
  - unfold len, zeros in *. rewrite length_app, repeat_length. lia.
  - rewrite forallb_app, zeros_digits, decimalDigits_digits. reflexivity.
  - apply decimalDigits_digits.
Qed.

(** [toFixed] with four fraction digits, on a finite number below 10^21 in
    magnitude. *)
Lemma toFixed_shape (x : float) :
  inFixedRange x = true -> FixedDecimal 4 (toFixed x CONFIG.COORDINATE_PRECISION).
Proof.
  unfold inFixedRange, toFixed, FixedDecimal.
  destruct (Prim2SF x) as [s | s | | s m e]; try discriminate; intros Hrange.
  - destruct (fixedDigits_shape 0 CONFIG.COORDINATE_PRECISION eq_refl)
      as (whole & fraction & -> & H).
    exists [], whole, fraction. split; [reflexivity |]. split; [left; reflexivity | exact H].
  - apply negb_true_iff in Hrange. rewrite Hrange.
    destruct (fixedDigits_shape (roundedTimesPow10 m e CONFIG.COORDINATE_PRECISION)
                CONFIG.COORDINATE_PRECISION eq_refl) as (whole & fraction & -> & H).
    exists (if s then js "-" else []), whole, fraction.
    split; [reflexivity |]. split; [destruct s; [right | left]; reflexivity | exact H].
Qed.

(** C7 as stated fails.  The binary64 number written 40.71275 lies below
    40.71275, so its latitude is rendered "40.7127", not "40.7128"; and a
    finite coordinate of magnitude 10^21 or more is rendered in exponent
    notation, without a decimal point. *)
Lemma formatCoordinates_example_rounds_down :
  formatCoordinates 40.71275 (-74.00601) = js "40.7127,-74.0060"
  /\ formatCoordinates 40.71275 (-74.00601) <> js "40.7128,-74.0060"
  /\ formatCoordinates 1e21 0 = js "1e+21,0.0000".
Proof.
  split; [| split].
  - vm_compute. reflexivity.
  - vm_compute. discriminate.
  - vm_compute. reflexivity.
Qed.

(** C7, as amended.  For finite coordinates of magnitude below 10^21,
    [formatCoordinates] is the latitude, a comma and the longitude, each
    with exactly four digits after the decimal point; (40.71275, -74.00601)
    gives "40.7127,-74.0060"; and the grid-point request is sent to the base
    URL followed by [/points/] and that string. *)
Theorem formatCoordinates_four_decimals :
  (forall lat lon,
      inFixedRange lat = true -> inFixedRange lon = true ->
      exists a b,
        formatCoordinates lat lon = a ++ js "," ++ b
        /\ FixedDecimal 4 a /\ FixedDecimal 4 b)
  /\ formatCoordinates 40.71275 (-74.00601) = js "40.7127,-74.0060"
  /\ (forall upstream this lat lon w, exists rest,
        snd (NWSAPIClient.getGridPoint upstream this lat lon w) =
          w ++ Fetched {| Request.url :=
                            NWSAPIClient.baseUrl this ++ js "/points/"
                            ++ formatCoordinates lat lon;
                          Request.headers := NWSAPIClient.requestHeaders this |} :: rest).
Proof.
  split; [| split].
  - intros lat lon Hlat Hlon.
    exists (toFixed lat CONFIG.COORDINATE_PRECISION),
           (toFixed lon CONFIG.COORDINATE_PRECISION).
    split; [reflexivity |]. split; apply toFixed_shape; assumption.
  - vm_compute. reflexivity.
  - intros upstream this lat lon w. unfold NWSAPIClient.getGridPoint.
    destruct (makeRequest_trace upstream this
                (NWSAPIClient.baseUrl this ++ js "/points/" ++ formatCoordinates lat lon)
                CONFIG.MAX_RETRIES w one_attempt_configured) as (rest & Hw & _).
    exists rest. exact Hw.
Qed.

(** C7, as amended, at a point in New York. *)
Lemma formatCoordinates_four_decimals_witness :
  exists a b,
    formatCoordinates 40.7128 (-74.006) = a ++ js "," ++ b
    /\ FixedDecimal 4 a /\ FixedDecimal 4 b.
Proof.
  exact (proj1 formatCoordinates_four_decimals 40.7128%float (-74.006)%float eq_refl eq_refl).
Defined.


(** * Further properties *)

(** ** The retry loop: budget, classification, recovery *)

Lemma totalSlept_app (u v : list Event) : totalSlept (u ++ v) = totalSlept u + totalSlept v.
Proof.
  induction u as [| e u IH]; [reflexivity |].
  destruct e; cbn [app totalSlept]; rewrite IH; lia.
Qed.

Section RetryBudget.

Context {T : Set}.
Variable upstream : Upstream T.
Variable this : NWSAPIClient.t.
Variable url : jsstring.
Variable retries : Z.

#[local] Abbreviation request := (NWSAPIClient.request this url).
#[local] Abbreviation attemptOnce := (NWSAPIClient.attemptOnce upstream this url retries).
#[local] Abbreviation attemptsFrom := (NWSAPIClient.attemptsFrom upstream this url retries).

Lemma classified_networkError (f : Failure) : Classified (networkError f).
Proof. left. repeat split. Qed.

Lemma classified_apiRequestFailed (r : Response.t T) :
  Response.ok r = false ->
  Classified (apiRequestFailed r (retryableStatus (Response.status r))).
Proof.
  intros Hok. right. split; [reflexivity |].
  exists (Response.status r). split; [reflexivity |]. split; [| reflexivity].
  unfold Response.ok in Hok. lia.
Qed.

(** Everything one attempt does, by the answer it gets. *)
Lemma attemptOnce_step (attempt : Z) (w : World) :
  match attemptOnce attempt w with
  | (NWSAPIClient.Returns payload, w') =>
      w' = w ++ [Fetched request]
      /\ exists r, upstream (fetchCount w) request = Resolved r
                   /\ Response.ok r = true /\ Response.json r = Parsed payload
  | (NWSAPIClient.Throws error, w') =>
      w' = w ++ [Fetched request]
      /\ exists e, error = Typed e /\ Classified e
           /\ (if failsRetryably (upstream (fetchCount w) request)
               then attempt = retries /\ IsLastError (upstream (fetchCount w) request) e
               else exists r, upstream (fetchCount w) request = Resolved r
                              /\ Response.ok r = false
                              /\ e = apiRequestFailed r false)
  | (NWSAPIClient.NextAttempt, w') =>
      w' = w ++ [Fetched request; Warned (NWSAPIClient.retryWarning attempt);
                 Slept CONFIG.RETRY_DELAY]
      /\ attempt <> retries
      /\ failsRetryably (upstream (fetchCount w) request) = true
  end.
Proof.
  assert (Hws : forall v, NWSAPIClient.warnAndSleep attempt (v ++ [Fetched request])
                 = v ++ [Fetched request; Warned (NWSAPIClient.retryWarning attempt);
                         Slept CONFIG.RETRY_DELAY]).
  { intros v. unfold NWSAPIClient.warnAndSleep, sleep, consoleWarn.
    rewrite <- !app_assoc. reflexivity. }
  destruct (upstream (fetchCount w) request) as [f | r] eqn:H.
  - rewrite (attemptOnce_rejected _ _ _ _ _ _ _ H). cbv zeta. cbn [failsRetryably].
    destruct (Z.eqb_spec attempt retries) as [Heq | Hne].
    + split; [reflexivity |]. exists (networkError f).
      repeat split; [apply classified_networkError | exact Heq].
    + rewrite Hws. repeat split. exact Hne.
  - rewrite (attemptOnce_resolved _ _ _ _ _ _ _ H). cbv zeta. cbn [failsRetryably].
    destruct (Response.ok r) eqn:Hok.
    + destruct (Response.json r) as [payload | f] eqn:Hjson.
      * split; [reflexivity |]. exists r. repeat split; assumption.
      * destruct (Z.eqb_spec attempt retries) as [Heq | Hne].
        -- split; [reflexivity |]. exists (networkError f).
           repeat split; [apply classified_networkError | exact Heq |].
           cbn [IsLastError]. rewrite Hok. exists f. split; [exact Hjson | reflexivity].
        -- rewrite Hws. repeat split. exact Hne.
    + fold (retryableStatus (Response.status r)).
      destruct (Z.eqb_spec attempt retries) as [Heq | Hne].
      * split; [reflexivity |].
        exists (apiRequestFailed r (retryableStatus (Response.status r))).
        split; [reflexivity |]. split; [apply classified_apiRequestFailed, Hok |].
        destruct (retryableStatus (Response.status r)) eqn:Hretry.
        -- split; [exact Heq |]. cbn [IsLastError]. rewrite Hok, Hretry. reflexivity.
        -- exists r. repeat split. exact Hok.
      * destruct (retryableStatus (Response.status r)) eqn:Hretry.
        -- rewrite Hws. repeat split. exact Hne.
        -- split; [reflexivity |]. exists (apiRequestFailed r false).
           split; [reflexivity |]. split.
           ++ rewrite <- Hretry. apply classified_apiRequestFailed, Hok.
           ++ exists r. repeat split. exact Hok.
Qed.

(** Everything a run of the loop does, from any attempt within the
    budget. *)
Lemma attemptsFrom_run (n : nat) :
  forall attempt w, attempt <= retries -> Z.to_nat (retries - attempt) = n ->
    exists events,
      snd (attemptsFrom attempt w) = w ++ events
      /\ Forall (OwnEvent request) events
      /\ 1 <= Z.of_nat (fetchCount events) <= retries - attempt + 1
      /\ totalSlept events = (Z.of_nat (fetchCount events) - 1) * CONFIG.RETRY_DELAY
      /\ match fst (attemptsFrom attempt w) with
         | Return payload =>
             exists r, upstream (Nat.pred (fetchCount (w ++ events))) request = Resolved r
                       /\ Response.ok r = true /\ Response.json r = Parsed payload
         | Throw error => exists e, error = Typed e /\ Classified e
         end.
Proof.
  induction n as [| n IH]; intros attempt w Hle Hn;
    rewrite (attemptsFrom_unfold upstream this url retries attempt w);
    (destruct (Z.leb_spec attempt retries); [| lia]);
    pose proof (attemptOnce_step attempt w) as Hstep;
    destruct (attemptOnce attempt w) as [[payload | error |] w1].
  1, 4: destruct Hstep as (-> & r & Hr & Hok & Hjson);
        exists [Fetched request]; cbn [fst snd];
        (split; [reflexivity |]); (split; [repeat constructor |]);
        (split; [cbn; lia |]); (split; [reflexivity |]);
        exists r; rewrite fetchCount_fetched; cbn [Nat.pred]; repeat split; assumption.
  1, 3: destruct Hstep as (-> & e & -> & Hclass & _);
        exists [Fetched request]; cbn [fst snd];
        (split; [reflexivity |]); (split; [repeat constructor |]);
        (split; [cbn; lia |]); (split; [reflexivity |]);
        exists e; split; [reflexivity | assumption].
  - destruct Hstep as (_ & Hne & _). lia.
  - destruct Hstep as (-> & Hne & _).
    destruct (IH (attempt + 1)
                (w ++ [Fetched request; Warned (NWSAPIClient.retryWarning attempt);
                       Slept CONFIG.RETRY_DELAY]) ltac:(lia) ltac:(lia))
      as (events & Hw & Hown & Hcount & Hslept & Hfst).
    exists ([Fetched request; Warned (NWSAPIClient.retryWarning attempt);
             Slept CONFIG.RETRY_DELAY] ++ events).
    rewrite app_assoc. split; [exact Hw |].
    split; [apply Forall_app; split; [repeat constructor | exact Hown] |].
    rewrite fetchCount_app, totalSlept_app.
    change (fetchCount [Fetched request; Warned (NWSAPIClient.retryWarning attempt);
                        Slept CONFIG.RETRY_DELAY]) with 1%nat.
    change (totalSlept [Fetched request; Warned (NWSAPIClient.retryWarning attempt);
                        Slept CONFIG.RETRY_DELAY]) with CONFIG.RETRY_DELAY.
    split; [lia |]. split; [lia |]. exact Hfst.
Qed.



(** X3.  Every error a request with at least one attempt throws is a
    [WeatherServiceError] of one of two shapes: NETWORK_ERROR without
    status and retryable, or API_REQUEST_FAILED with a status outside
    200..299 and the retryable flag exactly when the status is at least 500
    or equals 429. *)
Theorem makeRequest_error_classification (w w' : World) (error : Thrown) :
  1 <= retries ->
  NWSAPIClient.makeRequest upstream this url retries w = (Throw error, w') ->
  exists e, error = Typed e /\ Classified e.
Proof.
  intros Hretries Hrun.
  destruct (attemptsFrom_run _ 1 w Hretries eq_refl) as (events & _ & _ & _ & _ & Hfst).
  unfold NWSAPIClient.makeRequest in Hrun. rewrite Hrun in Hfst. exact Hfst.
Qed.

(** X4.  A payload a request returns is the parsed body of a 2xx response
    that the upstream gave to the last request sent. *)
Theorem makeRequest_returns_upstream_payload (w w' : World) (payload : T) :
  NWSAPIClient.makeRequest upstream this url retries w = (Return payload, w') ->
  exists r,
    upstream (Nat.pred (fetchCount w')) request = Resolved r
    /\ Response.ok r = true /\ Response.json r = Parsed payload.
Proof.
  intros Hrun. unfold NWSAPIClient.makeRequest in Hrun.
  destruct (Z.lt_ge_cases retries 1) as [Hlt | Hge].
  - rewrite (attemptsFrom_unfold upstream this url retries 1 w) in Hrun.
    destruct (Z.leb_spec 1 retries); [lia | discriminate].
  - destruct (attemptsFrom_run _ 1 w Hge eq_refl) as (events & Hw & _ & _ & _ & Hfst).
    rewrite Hrun in Hw, Hfst. cbn [fst snd] in Hw, Hfst. subst w'. exact Hfst.
Qed.

Lemma failsRetryably_parsed (r : Response.t T) (payload : T) :
  Response.ok r = true -> Response.json r = Parsed payload ->
  failsRetryably (Resolved r) = false.
Proof. intros Hok Hjson. cbn [failsRetryably]. rewrite Hok, Hjson. reflexivity. Qed.

Lemma attemptsFrom_recovers (k : nat) :
  forall attempt w (r : Response.t T) (payload : T),
    attempt + Z.of_nat k <= retries ->
    (forall i, (i < k)%nat ->
       failsRetryably (upstream (fetchCount w + i)%nat request) = true) ->
    upstream (fetchCount w + k)%nat request = Resolved r ->
    Response.ok r = true -> Response.json r = Parsed payload ->
    exists events,
      attemptsFrom attempt w = (Return payload, w ++ events)
      /\ Forall (OwnEvent request) events
      /\ fetchCount events = S k
      /\ totalSlept events = Z.of_nat k * CONFIG.RETRY_DELAY.
Proof.
  induction k as [| k IH]; intros attempt w r payload Hle Hfail Hlast Hok Hjson;
    rewrite (attemptsFrom_unfold upstream this url retries attempt w);
    (destruct (Z.leb_spec attempt retries); [| lia]).
  - rewrite Nat.add_0_r in Hlast.
    rewrite (attemptOnce_resolved _ _ _ _ _ _ _ Hlast), Hok, Hjson. cbv zeta.
    exists [Fetched request]. repeat split. repeat constructor.
  - pose proof (attemptOnce_step attempt w) as Hstep.
    pose proof (Hfail 0%nat ltac:(lia)) as Hfirst. rewrite Nat.add_0_r in Hfirst.
    destruct (attemptOnce attempt w) as [[p | error |] w1].
    + destruct Hstep as (_ & r0 & Hr0 & Hok0 & Hjson0).
      rewrite Hr0, (failsRetryably_parsed _ _ Hok0 Hjson0) in Hfirst. discriminate.
    + destruct Hstep as (_ & e & _ & _ & Hlastattempt).
      rewrite Hfirst in Hlastattempt. lia.
    + destruct Hstep as (-> & _ & _).
      destruct (IH (attempt + 1)
                  (w ++ [Fetched request; Warned (NWSAPIClient.retryWarning attempt);
                         Slept CONFIG.RETRY_DELAY]) r payload ltac:(lia))
        as (events & Hrun & Hown & Hcount & Hslept); try assumption.
      * intros i Hi. rewrite fetchCount_app. cbn [fetchCount filter isFetched List.length].
        replace (fetchCount w + 1 + i)%nat with (fetchCount w + S i)%nat by lia.
        apply Hfail. lia.
      * rewrite fetchCount_app. cbn [fetchCount filter isFetched List.length].
        replace (fetchCount w + 1 + k)%nat with (fetchCount w + S k)%nat by lia.
        exact Hlast.
      * exists ([Fetched request; Warned (NWSAPIClient.retryWarning attempt);
                 Slept CONFIG.RETRY_DELAY] ++ events).
        rewrite app_assoc. split; [exact Hrun |].
        split; [apply Forall_app; split; [repeat constructor | exact Hown] |].
        rewrite fetchCount_app, totalSlept_app, Hcount, Hslept.
        cbn [fetchCount filter isFetched List.length totalSlept]. split; lia.
Qed.

(** X5.  If the first [k] answers are failures the loop retries (no
    response, an unparsable 2xx body, or a status of at least 500 or 429),
    the next answer is a 2xx response with a JSON body, and [k + 1] attempts
    are allowed, then the request returns that payload after exactly [k + 1]
    requests and [k] delays. *)
Theorem makeRequest_recovers_after_failures
    (k : nat) (w : World) (r : Response.t T) (payload : T) :
  Z.of_nat k < retries ->
  (forall i, (i < k)%nat ->
     failsRetryably (upstream (fetchCount w + i)%nat request) = true) ->
  upstream (fetchCount w + k)%nat request = Resolved r ->
  Response.ok r = true -> Response.json r = Parsed payload ->
  exists events,
    NWSAPIClient.makeRequest upstream this url retries w = (Return payload, w ++ events)
    /\ Forall (OwnEvent request) events
    /\ fetchCount events = S k
    /\ totalSlept events = Z.of_nat k * CONFIG.RETRY_DELAY.
Proof.
  intros Hk. apply attemptsFrom_recovers. lia.
Qed.

Lemma attemptsFrom_exhausts (n : nat) :
  forall attempt w, attempt <= retries -> Z.to_nat (retries - attempt) = n ->
    (forall i, (i <= n)%nat ->
       failsRetryably (upstream (fetchCount w + i)%nat request) = true) ->
    exists events e,
      attemptsFrom attempt w = (Throw (Typed e), w ++ events)
      /\ Forall (OwnEvent request) events
      /\ fetchCount events = S n
      /\ totalSlept events = Z.of_nat n * CONFIG.RETRY_DELAY
      /\ IsLastError (upstream (fetchCount w + n)%nat request) e.
Proof.
  induction n as [| n IH]; intros attempt w Hle Hn Hfail;
    rewrite (attemptsFrom_unfold upstream this url retries attempt w);
    (destruct (Z.leb_spec attempt retries); [| lia]);
    pose proof (attemptOnce_step attempt w) as Hstep;
    pose proof (Hfail 0%nat ltac:(lia)) as Hfirst; rewrite Nat.add_0_r in Hfirst;
    destruct (attemptOnce attempt w) as [[p | error |] w1].
  1, 4: destruct Hstep as (_ & r0 & Hr0 & Hok0 & Hjson0);
        rewrite Hr0, (failsRetryably_parsed _ _ Hok0 Hjson0) in Hfirst; discriminate.
  - destruct Hstep as (-> & e & -> & _ & Hlast). rewrite Hfirst in Hlast.
    destruct Hlast as (_ & Hlast).
    exists [Fetched request], e. rewrite Nat.add_0_r.
    repeat split; [repeat constructor | exact Hlast].
  - destruct Hstep as (_ & Hne & _). lia.
  - destruct Hstep as (_ & e & _ & _ & Hlast). rewrite Hfirst in Hlast. lia.
  - destruct Hstep as (-> & _ & _).
    destruct (IH (attempt + 1)
                (w ++ [Fetched request; Warned (NWSAPIClient.retryWarning attempt);
                       Slept CONFIG.RETRY_DELAY]) ltac:(lia) ltac:(lia))
      as (events & e & Hrun & Hown & Hcount & Hslept & Hlast).
    + intros i Hi. rewrite fetchCount_app. cbn [fetchCount filter isFetched List.length].
      replace (fetchCount w + 1 + i)%nat with (fetchCount w + S i)%nat by lia.
      apply Hfail. lia.
    + exists ([Fetched request; Warned (NWSAPIClient.retryWarning attempt);
               Slept CONFIG.RETRY_DELAY] ++ events), e.
      rewrite app_assoc. split; [exact Hrun |].
      split; [apply Forall_app; split; [repeat constructor | exact Hown] |].
      rewrite fetchCount_app, totalSlept_app, Hcount, Hslept.
      cbn [fetchCount filter isFetched List.length totalSlept].
      split; [lia |]. split; [lia |].
      rewrite fetchCount_app in Hlast. cbn [fetchCount filter isFetched List.length] in Hlast.
      replace (fetchCount w + S n)%nat with (fetchCount w + 1 + n)%nat by lia.
      exact Hlast.
Qed.

Lemma lastError_retryable (answer : FetchResult T) (e : WeatherServiceError) :
  failsRetryably answer = true -> IsLastError answer e -> retryable e = true.
Proof.
  destruct answer as [f | r]; cbn [failsRetryably IsLastError].
  - intros _ ->. reflexivity.
  - destruct (Response.ok r).
    + intros _ (f & _ & ->). reflexivity.
    + intros Hretry ->. exact Hretry.
Qed.

(** X6.  If every one of the [retries] allowed attempts gets a failure the
    loop retries, the request sends exactly [retries] requests, sleeps
    [retries - 1] times, and throws the error of the last answer:
    NETWORK_ERROR when there was no response or the body did not parse,
    API_REQUEST_FAILED with that status otherwise; the error is marked
    retryable. *)
Theorem makeRequest_gives_up_after_last_attempt (w : World) :
  1 <= retries ->
  (forall i, (i < Z.to_nat retries)%nat ->
     failsRetryably (upstream (fetchCount w + i)%nat request) = true) ->
  exists events e,
    NWSAPIClient.makeRequest upstream this url retries w = (Throw (Typed e), w ++ events)
    /\ Forall (OwnEvent request) events
    /\ Z.of_nat (fetchCount events) = retries
    /\ totalSlept events = (retries - 1) * CONFIG.RETRY_DELAY
    /\ IsLastError (upstream (fetchCount w + Z.to_nat (retries - 1))%nat request) e
    /\ retryable e = true.
Proof.
  intros Hretries Hfail.
  destruct (attemptsFrom_exhausts (Z.to_nat (retries - 1)) 1 w Hretries eq_refl)
    as (events & e & Hrun & Hown & Hcount & Hslept & Hlast).
  { intros i Hi. apply Hfail. lia. }
  exists events, e. unfold NWSAPIClient.makeRequest.
  split; [exact Hrun |]. split; [exact Hown |]. split; [lia |].
  split; [rewrite Hslept; f_equal; lia |]. split; [exact Hlast |].
  apply (lastError_retryable _ _ (Hfail (Z.to_nat (retries - 1)) ltac:(lia)) Hlast).
Qed.

(** X7.  A response with a status outside 200..299 that is below 500 and
    not 429 ends the request at once, on whatever attempt it arrives: the
    error is API_REQUEST_FAILED with that status and retryable = false, and
    nothing is logged or slept after the request. *)
Theorem attempt_with_terminal_status (attempt : Z) (w : World) (r : Response.t T) :
  attempt <= retries ->
  upstream (fetchCount w) request = Resolved r ->
  Response.ok r = false -> retryableStatus (Response.status r) = false ->
  attemptsFrom attempt w =
    (Throw (Typed (newWeatherServiceError
                     (js "HTTP " ++ integerToString (Response.status r) ++ js ": "
                      ++ Response.statusText r)
                     (js "API_REQUEST_FAILED") (Some (Response.status r)) false)),
     w ++ [Fetched request]).
Proof.
  intros Hle H Hok Hretry.
  rewrite (attemptsFrom_unfold upstream this url retries attempt w),
    (attemptOnce_resolved _ _ _ _ _ _ _ H), Hok.
  cbv zeta. fold (retryableStatus (Response.status r)). rewrite Hretry.
  destruct (Z.leb_spec attempt retries); [| lia].
  destruct (attempt =? retries); reflexivity.
Qed.

End RetryBudget.


(** X3 at [SimulatedMore.rateLimited]: the error after three answers 429. *)
Lemma makeRequest_error_classification_witness :
  exists e,
    Typed (newWeatherServiceError (js "HTTP 429: Too Many Requests")
             (js "API_REQUEST_FAILED") (Some 429) true) = Typed e
    /\ Classified e.
Proof.
  refine (makeRequest_error_classification SimulatedMore.rateLimited Simulated.client
            Simulated.alertsUrl CONFIG.MAX_RETRIES [] _ _ one_attempt_configured _).
  vm_compute. reflexivity.
Defined.

(** X4 at [Simulated.overloadedTwice]: the payload is the third answer. *)
Lemma makeRequest_returns_upstream_payload_witness :
  exists r,
    Simulated.overloadedTwice 2%nat
      (NWSAPIClient.request Simulated.client Simulated.alertsUrl) = Resolved r
    /\ Response.ok r = true /\ Response.json r = Parsed Simulated.noAlerts.
Proof.
  refine (makeRequest_returns_upstream_payload Simulated.overloadedTwice Simulated.client
            Simulated.alertsUrl CONFIG.MAX_RETRIES []
            [ Fetched (NWSAPIClient.request Simulated.client Simulated.alertsUrl);
              Warned (NWSAPIClient.retryWarning 1); Slept 1000;
              Fetched (NWSAPIClient.request Simulated.client Simulated.alertsUrl);
              Warned (NWSAPIClient.retryWarning 2); Slept 1000;
              Fetched (NWSAPIClient.request Simulated.client Simulated.alertsUrl) ]
            Simulated.noAlerts _).
  vm_compute. reflexivity.
Defined.

(** X5 at [SimulatedMore.droppedOnce]: one transport failure, then success. *)
Lemma makeRequest_recovers_after_failures_witness :
  exists events,
    NWSAPIClient.makeRequest SimulatedMore.droppedOnce Simulated.client Simulated.alertsUrl
      CONFIG.MAX_RETRIES [] = (Return Simulated.noAlerts, [] ++ events)
    /\ Forall (OwnEvent (NWSAPIClient.request Simulated.client Simulated.alertsUrl)) events
    /\ fetchCount events = 2%nat
    /\ totalSlept events = 1 * CONFIG.RETRY_DELAY.
Proof.
  refine (makeRequest_recovers_after_failures SimulatedMore.droppedOnce Simulated.client
            Simulated.alertsUrl CONFIG.MAX_RETRIES 1 []
            {| Response.status := 200; Response.statusText := js "OK";
               Response.json := Parsed Simulated.noAlerts |}
            Simulated.noAlerts eq_refl _ eq_refl eq_refl eq_refl).
  intros [| i] Hi; [reflexivity | lia].
Defined.

(** X6 at [SimulatedMore.unreachable]: three requests, two delays,
    NETWORK_ERROR. *)
Lemma makeRequest_gives_up_after_last_attempt_witness :
  exists events e,
    NWSAPIClient.makeRequest SimulatedMore.unreachable Simulated.client Simulated.alertsUrl
      CONFIG.MAX_RETRIES [] = (Throw (Typed e), [] ++ events)
    /\ Forall (OwnEvent (NWSAPIClient.request Simulated.client Simulated.alertsUrl)) events
    /\ Z.of_nat (fetchCount events) = CONFIG.MAX_RETRIES
    /\ totalSlept events = (CONFIG.MAX_RETRIES - 1) * CONFIG.RETRY_DELAY
    /\ e = networkError (ErrorObject (js "fetch failed"))
    /\ retryable e = true.
Proof.
  refine (makeRequest_gives_up_after_last_attempt SimulatedMore.unreachable Simulated.client
            Simulated.alertsUrl CONFIG.MAX_RETRIES [] one_attempt_configured _).
  intros i _. reflexivity.
Defined.

(** X7 at [SimulatedMore.forbidden], on the first attempt. *)
Lemma attempt_with_terminal_status_witness :
  NWSAPIClient.attemptsFrom SimulatedMore.forbidden Simulated.client Simulated.alertsUrl
    CONFIG.MAX_RETRIES 1 [] =
    (Throw (Typed (newWeatherServiceError (js "HTTP 403: Forbidden")
                     (js "API_REQUEST_FAILED") (Some 403) false)),
     [Fetched (NWSAPIClient.request Simulated.client Simulated.alertsUrl)]).
Proof.
  exact (attempt_with_terminal_status SimulatedMore.forbidden Simulated.client
           Simulated.alertsUrl CONFIG.MAX_RETRIES 1 []
           {| Response.status := 403; Response.statusText := js "Forbidden";
              Response.json := Simulated.htmlBody |}
           one_attempt_configured eq_refl eq_refl eq_refl).
Defined.


(** ** Coordinate ranges *)

(** On binary64 values that are not NaN the order is total: [a < b] fails
    exactly when [b <= a]. *)
Lemma SFltb_false_iff_SFleb (a b : spec_float) :
  negb (SFltb a b) = negb (SFeqb a a) || negb (SFeqb b b) || SFleb b a.
Proof.
  unfold SFltb, SFleb, SFeqb.
  destruct a as [sa | sa | | sa ma ea], b as [sb | sb | | sb mb eb]; cbn [SFcompare];
    rewrite ?Z.compare_refl, ?Pos.compare_cont_refl;
    try solve [repeat match goal with s : bool |- _ => destruct s end; reflexivity].
  change (Pos.compare_cont Eq) with Pos.compare.
  rewrite (Z.compare_antisym ea eb), (Pos.compare_antisym ma mb).
  destruct sa, sb, (ea ?= eb), (ma ?= mb)%positive; reflexivity.
Qed.

Lemma ltb_false_iff_leb (x y : float) :
  negb (PrimFloat.ltb x y) = PrimFloat.is_nan x || PrimFloat.is_nan y || PrimFloat.leb y x.
Proof.
  unfold PrimFloat.is_nan.
  rewrite ltb_spec, leb_spec, !eqb_spec. apply SFltb_false_iff_SFleb.
Qed.

(** The range test of [validateCoordinates], read as an acceptance test. *)
Lemma outside_range (low high x : float) :
  PrimFloat.is_nan low = false -> PrimFloat.is_nan high = false ->
  PrimFloat.ltb x low || PrimFloat.ltb high x
  = negb (PrimFloat.is_nan x || withinRange low high x).
Proof.
  intros Hlow Hhigh. unfold withinRange.
  pose proof (ltb_false_iff_leb x low) as H1.
  pose proof (ltb_false_iff_leb high x) as H2.
  rewrite Hlow in H1. rewrite Hhigh in H2.
  destruct (PrimFloat.ltb x low), (PrimFloat.ltb high x), (PrimFloat.is_nan x),
    (PrimFloat.leb low x), (PrimFloat.leb x high); cbn in *; congruence.
Qed.

(** X8.  [validateCoordinates] accepts a pair exactly when each coordinate
    is NaN or lies between its bounds, the bounds -90, 90, -180 and 180
    included; a latitude that is out of range is reported whatever the
    longitude is. *)
Theorem validateCoordinates_range (latitude longitude : float) :
  validateCoordinates latitude longitude =
    if negb (PrimFloat.is_nan latitude || withinRange (-90) 90 latitude) then
      Throw (Typed (newWeatherServiceError
                      (js "Invalid latitude: " ++ NumberToString latitude
                       ++ js ". Must be between -90 and 90")
                      (js "INVALID_LATITUDE") None false))
    else if negb (PrimFloat.is_nan longitude || withinRange (-180) 180 longitude) then
      Throw (Typed (newWeatherServiceError
                      (js "Invalid longitude: " ++ NumberToString longitude
                       ++ js ". Must be between -180 and 180")
                      (js "INVALID_LONGITUDE") None false))
    else Return tt.
Proof.
  unfold validateCoordinates.
  rewrite (outside_range (-90) 90 latitude eq_refl eq_refl),
    (outside_range (-180) 180 longitude eq_refl eq_refl).
  reflexivity.
Qed.

(** ** State codes: what is returned *)

Lemma asciiUpper_capital (u : Z) : isCapital u = true -> asciiUpper u = u.
Proof.
  unfold isCapital, asciiUpper. intros H.
  destruct ((97 <=? u) && (u <=? 122)) eqn:Hlower; [lia | reflexivity].
Qed.

Lemma isAscii_capital (u : Z) : isCapital u = true -> isAscii u = true.
Proof. unfold isCapital, isAscii. lia. Qed.

(** A returned state code is the upper-case form, two capital letters. *)
Lemma validateStateCode_capitals (state stateCode : jsstring) :
  validateStateCode state = Return stateCode ->
  exists a b, stateCode = [a; b] /\ isCapital a = true /\ isCapital b = true.
Proof.
  unfold validateStateCode.
  destruct (testTwoCapitals (toUpperCase state)) eqn:Htest; cbn [negb]; [| discriminate].
  intros [= <-].
  destruct (toUpperCase state) as [| a [| b [| c rest]]]; try discriminate.
  cbn [testTwoCapitals] in Htest. apply andb_prop in Htest. destruct Htest as [Ha Hb].
  exists a, b. repeat split; assumption.
Qed.

(** X9.  A state code that [validateStateCode] returns is exactly two
    capital ASCII letters, and validating it again returns it unchanged. *)
Theorem validateStateCode_returns_normal_form (state stateCode : jsstring) :
  validateStateCode state = Return stateCode ->
  (exists a b, stateCode = [a; b] /\ isCapital a = true /\ isCapital b = true)
  /\ validateStateCode stateCode = Return stateCode.
Proof.
  intros Hvalid.
  destruct (validateStateCode_capitals _ _ Hvalid) as (a & b & -> & Ha & Hb).
  split; [exists a, b; repeat split; assumption |].
  assert (Hascii : forallb isAscii [a; b] = true).
  { cbn [forallb]. rewrite (isAscii_capital _ Ha), (isAscii_capital _ Hb). reflexivity. }
  unfold validateStateCode. rewrite (toUpperCase_ascii _ Hascii).
  cbn [map]. rewrite (asciiUpper_capital _ Ha), (asciiUpper_capital _ Hb).
  cbn [testTwoCapitals]. rewrite Ha, Hb. reflexivity.
Qed.

(** X9 at "ny". *)
Lemma validateStateCode_returns_normal_form_witness :
  (exists a b, js "NY" = [a; b] /\ isCapital a = true /\ isCapital b = true)
  /\ validateStateCode (js "NY") = Return (js "NY").
Proof.
  refine (validateStateCode_returns_normal_form (js "ny") (js "NY") _).
  vm_compute. reflexivity.
Defined.

(** ** The service: validation, errors, budget *)

(** What the [catch] block of the service lets through. *)
Lemma tryCatch_rethrowOrWrap {A : Set} (m : Task A) (prefix errorCode : jsstring) (w : World) :
  match m w with
  | (Return a, w') =>
      tryCatch m (WeatherService.rethrowOrWrap prefix errorCode) w = (Return a, w')
  | (Throw (Typed e), w') =>
      tryCatch m (WeatherService.rethrowOrWrap prefix errorCode) w = (Throw (Typed e), w')
  | (Throw (Foreign f), w') =>
      tryCatch m (WeatherService.rethrowOrWrap prefix errorCode) w =
        (Throw (Typed (newWeatherServiceError (prefix ++ messageOf f) errorCode None false)),
         w')
  end.
Proof.
  unfold tryCatch. destruct (m w) as [[a | [e | f]] w']; reflexivity.
Qed.

Section ServiceMore.

Variable network : Network.

(** X10.  An input that is not a state code never reaches the network:
    [getAlerts] throws the INVALID_STATE_CODE error of [validateStateCode]
    unchanged and leaves the world as it was. *)
Theorem getAlerts_invalid_state_sends_nothing (state : jsstring) (w : World) :
  testTwoCapitals (toUpperCase state) = false ->
  WeatherService.getAlerts network state w = (Throw (Typed (invalidStateCode state)), w).
Proof.
  intros Htest.
  unfold WeatherService.getAlerts, tryCatch, bind, lift, validateStateCode.
  rewrite Htest. reflexivity.
Qed.

(** X11.  Coordinates that fail validation never reach the network:
    [getForecast] throws the error of [validateCoordinates] unchanged and
    leaves the world as it was. *)
Theorem getForecast_invalid_coordinates_send_nothing
    (latitude longitude : float) (error : Thrown) (w : World) :
  validateCoordinates latitude longitude = Throw error ->
  WeatherService.getForecast network latitude longitude w = (Throw error, w).
Proof.
  intros Hvalid.
  unfold WeatherService.getForecast, tryCatch, bind, lift. rewrite Hvalid.
  unfold validateCoordinates in Hvalid.
  destruct (PrimFloat.ltb latitude (-90) || PrimFloat.ltb 90 latitude);
    [| destruct (PrimFloat.ltb longitude (-180) || PrimFloat.ltb 180 longitude)];
    try discriminate; injection Hvalid as <-; reflexivity.
Qed.

(** X12.  Whatever the upstream does, the two entry points of the service
    throw nothing but a [WeatherServiceError]. *)
Theorem service_throws_only_WeatherServiceError (w : World) :
  (forall state f,
      fst (WeatherService.getAlerts network state w) <> Throw (Foreign f))
  /\ (forall latitude longitude f,
        fst (WeatherService.getForecast network latitude longitude w) <> Throw (Foreign f)).
Proof.
  split; intros; unfold WeatherService.getAlerts, WeatherService.getForecast;
    match goal with
    | |- fst (tryCatch ?m (WeatherService.rethrowOrWrap ?p ?c) w) <> _ =>
        pose proof (tryCatch_rethrowOrWrap m p c w) as H;
        destruct (m w) as [[a | [e | f']] w']; rewrite H; discriminate
    end.
Qed.

(** X13.  A tool handler never throws and always answers one text item:
    the text of the service on success, and [Error: <code>: <message>] of
    the [WeatherServiceError] otherwise; the answer for an error that is not
    a [WeatherServiceError] is never produced. *)
Theorem handlers_answer_text_or_typed_error (w : World) :
  (forall state,
      match WeatherService.getAlerts network state w with
      | (Return result, w') =>
          WeatherMCPServer.getAlertsHandler network state w =
            (WeatherMCPServer.textResult result, w')
      | (Throw (Typed e), w') =>
          WeatherMCPServer.getAlertsHandler network state w =
            (WeatherMCPServer.textResult (js "Error: " ++ code e ++ js ": " ++ message e), w')
      | (Throw (Foreign _), _) => False
      end)
  /\ (forall latitude longitude,
        match WeatherService.getForecast network latitude longitude w with
        | (Return result, w') =>
            WeatherMCPServer.getForecastHandler network latitude longitude w =
              (WeatherMCPServer.textResult result, w')
        | (Throw (Typed e), w') =>
            WeatherMCPServer.getForecastHandler network latitude longitude w =
              (WeatherMCPServer.textResult
                 (js "Error: " ++ code e ++ js ": " ++ message e), w')
        | (Throw (Foreign _), _) => False
        end).
Proof.
  split; intros;
    unfold WeatherMCPServer.getAlertsHandler, WeatherMCPServer.getForecastHandler,
      WeatherService.getAlerts, WeatherService.getForecast;
    match goal with
    | |- context [tryCatch ?m (WeatherService.rethrowOrWrap ?p ?c) w] =>
        pose proof (tryCatch_rethrowOrWrap m p c w) as H;
        destruct (m w) as [[a | [e | f']] w']; rewrite H; reflexivity
    end.
Qed.

#[local] Abbreviation alertsRequest stateCode :=
  (NWSAPIClient.request WeatherService.apiClient
     (CONFIG.NWS_API_BASE ++ js "/alerts?area=" ++ stateCode)).

#[local] Abbreviation gridPointRequest latitude longitude :=
  (NWSAPIClient.request WeatherService.apiClient
     (CONFIG.NWS_API_BASE ++ js "/points/" ++ formatCoordinates latitude longitude)).

(** A request whose first answer is a 2xx response with a JSON body. *)
Lemma makeRequest_first_answer {T : Set} (upstream : Upstream T) (this : NWSAPIClient.t)
    (url : jsstring) (w : World) (r : Response.t T) (payload : T) :
  upstream (fetchCount w) (NWSAPIClient.request this url) = Resolved r ->
  Response.ok r = true -> Response.json r = Parsed payload ->
  NWSAPIClient.makeRequest upstream this url CONFIG.MAX_RETRIES w
  = (Return payload, w ++ [Fetched (NWSAPIClient.request this url)]).
Proof.
  intros H Hok Hjson. unfold NWSAPIClient.makeRequest.
  rewrite (attemptsFrom_unfold upstream this url CONFIG.MAX_RETRIES 1 w),
    (attemptOnce_resolved _ _ _ _ _ _ _ H), Hok, Hjson.
  reflexivity.
Qed.

(** X14.  For a valid state code whose alerts request is answered at once
    by a 2xx response with a JSON body, [getAlerts] sends that one request,
    to [/alerts?area=] followed by the upper-cased code, and returns the
    formatted alerts; when the payload has no [features] or an empty list,
    the text is "No active alerts for " followed by the upper-cased code. *)
Theorem getAlerts_formats_first_answer
    (state : jsstring) (w : World) (r : Response.t AlertsResponse.t)
    (alertsData : AlertsResponse.t) :
  testTwoCapitals (toUpperCase state) = true ->
  alertsEndpoint network (fetchCount w) (alertsRequest (toUpperCase state)) = Resolved r ->
  Response.ok r = true -> Response.json r = Parsed alertsData ->
  WeatherService.getAlerts network state w =
    (Return (WeatherDataFormatter.formatAlerts
               (match AlertsResponse.features alertsData with
                | Some features => features
                | None => []
                end) (toUpperCase state)),
     w ++ [Fetched (alertsRequest (toUpperCase state))])
  /\ (AlertsResponse.features alertsData = None
      \/ AlertsResponse.features alertsData = Some [] ->
      WeatherService.getAlerts network state w =
        (Return (js "No active alerts for " ++ toUpperCase state),
         w ++ [Fetched (alertsRequest (toUpperCase state))])).
Proof.
  intros Htest H Hok Hjson.
  assert (Hrun : WeatherService.getAlerts network state w =
            (Return (WeatherDataFormatter.formatAlerts
                       (match AlertsResponse.features alertsData with
                        | Some features => features
                        | None => []
                        end) (toUpperCase state)),
             w ++ [Fetched (alertsRequest (toUpperCase state))])).
  { unfold WeatherService.getAlerts, tryCatch, bind, lift, validateStateCode,
      NWSAPIClient.getAlerts.
    rewrite Htest. cbn [negb].
    change (NWSAPIClient.baseUrl WeatherService.apiClient) with CONFIG.NWS_API_BASE.
    rewrite (makeRequest_first_answer _ _ _ _ _ _ H Hok Hjson). reflexivity. }
  split; [exact Hrun |].
  intros [Hnone | Hempty]; rewrite Hrun; [rewrite Hnone | rewrite Hempty]; reflexivity.
Qed.

(** X15.  For valid coordinates, when the grid-point request is answered at
    once with a payload that names a forecast URL and the request to that
    URL is answered at once with a JSON body, [getForecast] sends exactly
    these two requests, the second to the URL the grid point named, and
    returns the formatted periods. *)
Theorem getForecast_follows_forecast_url
    (latitude longitude : float) (w : World)
    (r1 : Response.t PointsResponse.t) (pointsData : PointsResponse.t)
    (forecastUrl : jsstring)
    (r2 : Response.t ForecastResponse.t) (forecastData : ForecastResponse.t) :
  validateCoordinates latitude longitude = Return tt ->
  pointsEndpoint network (fetchCount w) (gridPointRequest latitude longitude) = Resolved r1 ->
  Response.ok r1 = true -> Response.json r1 = Parsed pointsData ->
  WeatherService.forecastUrlOf pointsData = Some forecastUrl ->
  truthyString forecastUrl = true ->
  forecastEndpoint network (S (fetchCount w))
    (NWSAPIClient.request WeatherService.apiClient forecastUrl) = Resolved r2 ->
  Response.ok r2 = true -> Response.json r2 = Parsed forecastData ->
  WeatherService.getForecast network latitude longitude w =
    (Return (WeatherDataFormatter.formatForecast (WeatherService.periodsOf forecastData)
               latitude longitude),
     w ++ [ Fetched (gridPointRequest latitude longitude);
            Fetched (NWSAPIClient.request WeatherService.apiClient forecastUrl) ]).
Proof.
  intros Hvalid H1 Hok1 Hjson1 Hurl Htruthy H2 Hok2 Hjson2.
  unfold WeatherService.getForecast, tryCatch, bind, lift,
    NWSAPIClient.getGridPoint, NWSAPIClient.getForecast.
  rewrite Hvalid.
  change (NWSAPIClient.baseUrl WeatherService.apiClient) with CONFIG.NWS_API_BASE.
  rewrite (makeRequest_first_answer _ _ _ _ _ _ H1 Hok1 Hjson1), Hurl, Htruthy.
  cbn [negb].
  rewrite <- (fetchCount_fetched w (gridPointRequest latitude longitude)) in H2.
  rewrite (makeRequest_first_answer _ _ _ _ _ _ H2 Hok2 Hjson2), <- app_assoc.
  reflexivity.
Qed.

(** A request with the configured budget, whatever the upstream does. *)
Lemma makeRequest_configured_budget {T : Set} (upstream : Upstream T)
    (this : NWSAPIClient.t) (url : jsstring) (w : World) :
  exists events,
    snd (NWSAPIClient.makeRequest upstream this url CONFIG.MAX_RETRIES w) = w ++ events
    /\ Z.of_nat (fetchCount events) <= CONFIG.MAX_RETRIES
    /\ totalSlept events <= (CONFIG.MAX_RETRIES - 1) * CONFIG.RETRY_DELAY.
Proof.
  destruct (attemptsFrom_run upstream this url CONFIG.MAX_RETRIES _ 1 w
              one_attempt_configured eq_refl) as (events & Hw & _ & Hcount & Hslept & _).
  exists events. split; [exact Hw |]. split; [lia |].
  rewrite Hslept. unfold CONFIG.RETRY_DELAY. lia.
Qed.

(** X16.  Whatever the upstream does, [getAlerts] sends at most 3 requests
    and sleeps at most 2000 ms, and [getForecast] sends at most 6 requests
    and sleeps at most 4000 ms; neither removes or changes an earlier
    event. *)
Theorem service_request_budget (w : World) :
  (forall state, exists events,
      snd (WeatherService.getAlerts network state w) = w ++ events
      /\ Z.of_nat (fetchCount events) <= 3 /\ totalSlept events <= 2000)
  /\ (forall latitude longitude, exists events,
        snd (WeatherService.getForecast network latitude longitude w) = w ++ events
        /\ Z.of_nat (fetchCount events) <= 6 /\ totalSlept events <= 4000).
Proof.
  split.
  - intros state.
    unfold WeatherService.getAlerts, tryCatch, bind, lift, NWSAPIClient.getAlerts.
    destruct (validateStateCode state) as [stateCode | error].
    + destruct (makeRequest_configured_budget (alertsEndpoint network)
                  WeatherService.apiClient
                  (NWSAPIClient.baseUrl WeatherService.apiClient ++ js "/alerts?area="
                   ++ stateCode) w) as (events & Hw & Hcount & Hslept).
      exists events.
      destruct (NWSAPIClient.makeRequest (alertsEndpoint network) WeatherService.apiClient _
                  CONFIG.MAX_RETRIES w) as [[alertsData | [e | f]] w1];
        cbn [snd] in Hw |- *; (split; [exact Hw |]);
        unfold CONFIG.MAX_RETRIES, CONFIG.RETRY_DELAY in *; lia.
    + exists []. rewrite app_nil_r.
      destruct error as [e | f]; (split; [reflexivity | cbn; lia]).
  - intros latitude longitude.
    unfold WeatherService.getForecast, tryCatch, bind, lift,
      NWSAPIClient.getGridPoint, NWSAPIClient.getForecast.
    destruct (validateCoordinates latitude longitude) as [[] | error].
    + destruct (makeRequest_configured_budget (pointsEndpoint network)
                  WeatherService.apiClient
                  (NWSAPIClient.baseUrl WeatherService.apiClient ++ js "/points/"
                   ++ formatCoordinates latitude longitude) w)
        as (events & Hw & Hcount & Hslept).
      destruct (NWSAPIClient.makeRequest (pointsEndpoint network) WeatherService.apiClient _
                  CONFIG.MAX_RETRIES w) as [[pointsData | [e | f]] w1];
        cbn [snd] in Hw; subst w1.
      * destruct (WeatherService.forecastUrlOf pointsData) as [forecastUrl |].
        -- destruct (truthyString forecastUrl); cbn [negb].
           ++ destruct (makeRequest_configured_budget (forecastEndpoint network)
                          WeatherService.apiClient forecastUrl (w ++ events))
                as (more & Hw & Hcount' & Hslept').
              exists (events ++ more). rewrite app_assoc.
              destruct (NWSAPIClient.makeRequest (forecastEndpoint network)
                          WeatherService.apiClient forecastUrl CONFIG.MAX_RETRIES
                          (w ++ events)) as [[forecastData | [e | f]] w2];
                cbn [snd] in Hw |- *; (split; [exact Hw |]);
                rewrite fetchCount_app, totalSlept_app;
                unfold CONFIG.MAX_RETRIES, CONFIG.RETRY_DELAY in *; lia.
           ++ exists events. split; [reflexivity |].
              unfold CONFIG.MAX_RETRIES, CONFIG.RETRY_DELAY in *; lia.
        -- exists events. split; [reflexivity |].
           unfold CONFIG.MAX_RETRIES, CONFIG.RETRY_DELAY in *; lia.
      * exists events. split; [reflexivity |].
        unfold CONFIG.MAX_RETRIES, CONFIG.RETRY_DELAY in *; lia.
      * exists events. split; [reflexivity |].
        unfold CONFIG.MAX_RETRIES, CONFIG.RETRY_DELAY in *; lia.
    + exists []. rewrite app_nil_r.
      destruct error as [e | f]; (split; [reflexivity | cbn; lia]).
Qed.

End ServiceMore.

(** X10 at "California". *)
Lemma getAlerts_invalid_state_sends_nothing_witness :
  WeatherService.getAlerts SimulatedMore.healthy (js "California") [] =
    (Throw (Typed (invalidStateCode (js "California"))), []).
Proof.
  exact (getAlerts_invalid_state_sends_nothing SimulatedMore.healthy (js "California") []
           eq_refl).
Defined.

(** X11 at latitude 91. *)
Lemma getForecast_invalid_coordinates_send_nothing_witness :
  WeatherService.getForecast SimulatedMore.healthy 91 0 [] =
    (Throw (Typed (newWeatherServiceError
                     (js "Invalid latitude: 91. Must be between -90 and 90")
                     (js "INVALID_LATITUDE") None false)), []).
Proof.
  refine (getForecast_invalid_coordinates_send_nothing SimulatedMore.healthy 91 0 _ [] _).
  vm_compute. reflexivity.
Defined.

(** X14 at "ca" against [SimulatedMore.healthy]. *)
Lemma getAlerts_formats_first_answer_witness :
  WeatherService.getAlerts SimulatedMore.healthy (js "ca") [] =
    (Return (js "No active alerts for CA"),
     [Fetched (NWSAPIClient.request WeatherService.apiClient
                 (js "https://api.weather.gov/alerts?area=CA"))]).
Proof.
  exact (proj2 (getAlerts_formats_first_answer SimulatedMore.healthy (js "ca") []
                  {| Response.status := 200; Response.statusText := js "OK";
                     Response.json := Parsed Simulated.noAlerts |}
                  Simulated.noAlerts eq_refl eq_refl eq_refl eq_refl)
           (or_intror eq_refl)).
Defined.

(** X15 at a point in New York against [SimulatedMore.healthy]. *)
Lemma getForecast_follows_forecast_url_witness :
  WeatherService.getForecast SimulatedMore.healthy 40.7128 (-74.006) [] =
    (Return (WeatherDataFormatter.formatForecast [SimulatedMore.tonight] 40.7128 (-74.006)),
     [ Fetched (NWSAPIClient.request WeatherService.apiClient
                  (js "https://api.weather.gov/points/40.7128,-74.0060"));
       Fetched (NWSAPIClient.request WeatherService.apiClient SimulatedMore.forecastUrl) ]).
Proof.
  exact (getForecast_follows_forecast_url SimulatedMore.healthy 40.7128 (-74.006) []
           {| Response.status := 200; Response.statusText := js "OK";
              Response.json := Parsed SimulatedMore.gridPoint |}
           SimulatedMore.gridPoint SimulatedMore.forecastUrl
           {| Response.status := 200; Response.statusText := js "OK";
              Response.json := Parsed SimulatedMore.forecast |}
           SimulatedMore.forecast
           eq_refl eq_refl eq_refl eq_refl eq_refl eq_refl eq_refl eq_refl eq_refl).
Defined.


(** ** The service: where the requests go *)

Section ServiceRequests.

Variable network : Network.

#[local] Abbreviation identityHeaders :=
  [ (js "User-Agent", js "weather-app/1.0"); (js "Accept", js "application/geo+json") ].

Lemma ownEvents_requests (request : Request.t) (P : Request.t -> Prop)
    (events : list Event) :
  P request -> Forall (OwnEvent request) events ->
  Forall (fun e => forall r, e = Fetched r -> P r) events.
Proof.
  intros HP Hown. eapply Forall_impl; [| exact Hown].
  intros e He r ->. cbn in He. rewrite He. exact HP.
Qed.

(** X17.  Every request that [getAlerts] sends goes to
    [https://api.weather.gov/alerts?area=] followed by two capital ASCII
    letters, and carries the User-Agent and Accept headers. *)
Theorem getAlerts_requests (state : jsstring) (w : World) :
  exists events,
    snd (WeatherService.getAlerts network state w) = w ++ events
    /\ Forall (fun e => forall r, e = Fetched r ->
                 exists a b,
                   isCapital a = true /\ isCapital b = true
                   /\ r = {| Request.url := js "https://api.weather.gov/alerts?area=" ++ [a; b];
                             Request.headers := identityHeaders |}) events.
Proof.
  unfold WeatherService.getAlerts, tryCatch, bind, lift, NWSAPIClient.getAlerts.
  destruct (validateStateCode state) as [stateCode | error] eqn:Hvalid.
  - destruct (validateStateCode_capitals _ _ Hvalid) as (a & b & -> & Ha & Hb).
    destruct (makeRequest_trace (alertsEndpoint network) WeatherService.apiClient
                (NWSAPIClient.baseUrl WeatherService.apiClient ++ js "/alerts?area=" ++ [a; b])
                CONFIG.MAX_RETRIES w one_attempt_configured) as (rest & Hw & Hown).
    exists (Fetched (NWSAPIClient.request WeatherService.apiClient
                       (NWSAPIClient.baseUrl WeatherService.apiClient
                        ++ js "/alerts?area=" ++ [a; b])) :: rest).
    split.
    + destruct (NWSAPIClient.makeRequest (alertsEndpoint network) WeatherService.apiClient _
                  CONFIG.MAX_RETRIES w) as [[alertsData | [e | f]] w1];
        cbn [snd] in Hw |- *; exact Hw.
    + apply (ownEvents_requests
               (NWSAPIClient.request WeatherService.apiClient
                  (NWSAPIClient.baseUrl WeatherService.apiClient
                   ++ js "/alerts?area=" ++ [a; b]))).
      * exists a, b. repeat split; assumption.
      * constructor; [reflexivity | exact Hown].
  - exists []. rewrite app_nil_r. split; [| constructor].
    destruct error as [e | f]; reflexivity.
Qed.


End ServiceRequests.


(** ** State codes of two code units *)

Lemma allFrom_spec (p : Z -> bool) (count : nat) :
  forall u, allFrom count u p = true ->
    forall v, u <= v < u + Z.of_nat count -> p v = true.
Proof.
  induction count as [| count IH]; intros u Hall v Hv; [lia |].
  cbn [allFrom] in Hall. apply andb_prop in Hall. destruct Hall as [Hu Hrest].
  destruct (Z.eq_dec v u) as [-> | Hne]; [exact Hu |].
  apply (IH (u + 1) Hrest). lia.
Qed.

Lemma lookupSpecial_in (table : list (Z * list Z)) (cp : Z) (image : list Z) :
  lookupSpecial table cp = Some image -> In (cp, image) table.
Proof.
  induction table as [| [key image'] table IH]; [discriminate |].
  cbn [lookupSpecial]. destruct (Z.eqb_spec key cp) as [-> | Hne].
  - intros [= ->]. left. reflexivity.
  - intros H. right. exact (IH H).
Qed.

Lemma lookupRange_in (table : list (Z * Z * Z * Z)) (cp c : Z) :
  lookupRange table cp = Some c ->
  exists first last stride offset,
    In (first, last, stride, offset) table /\ first <= cp <= last /\ c = cp + offset.
Proof.
  induction table as [| [[[first last] stride] offset] table IH]; [discriminate |].
  cbn [lookupRange].
  destruct ((first <=? cp) && (cp <=? last) && ((cp - first) mod stride =? 0)) eqn:Hin.
  - intros [= <-]. exists first, last, stride, offset.
    split; [left; reflexivity |]. split; [lia | reflexivity].
  - intros H. destruct (IH H) as (f & l & st & o & Hmem & Hrest).
    exists f, l, st, o. split; [right; exact Hmem | exact Hrest].
Qed.

Lemma upperSpecial_checked : forallb specialEntryChecked upperSpecial = true.
Proof. vm_compute. reflexivity. Qed.

Lemma upperRanges_checked : forallb rangeEntryChecked upperRanges = true.
Proof. vm_compute. reflexivity. Qed.

Lemma capitals_checked : allFrom 384 0 capitalChecked = true.
Proof. vm_compute. reflexivity. Qed.

Lemma codeUnits_cases (cp : Z) :
  codeUnits cp = [cp]
  \/ exists high low, codeUnits cp = [high; low] /\ isCapital high = false.
Proof.
  unfold codeUnits. destruct (Z.ltb_spec cp 0x10000) as [Hlt | Hge]; [left; reflexivity |].
  right. eexists _, _. split; [reflexivity |].
  unfold isCapital.
  pose proof (Z.div_pos (cp - 0x10000) 0x400 ltac:(lia) ltac:(lia)). lia.
Qed.

Lemma upperUnits_several (image : list Z) :
  2 <= len image -> exists c d rest, flat_map codeUnits image = c :: d :: rest.
Proof.
  destruct image as [| x [| y image]]; unfold len; cbn [List.length]; try lia.
  intros _. cbn [flat_map].
  destruct (codeUnits_cases x) as [-> | (h & l & -> & _)];
    destruct (codeUnits_cases y) as [-> | (h' & l' & -> & _)];
    cbn [app]; eexists _, _, _; reflexivity.
Qed.

(** The upper-case form of a unit that is one of the units above. *)
Lemma upperUnits_capital (u : Z) :
  upperCasesToCapital u = true ->
  upperUnits u = [capitalOf u] /\ isCapital (capitalOf u) = true.
Proof.
  intros Hu.
  assert (Hrange : 0 <= u < 0 + Z.of_nat 384)
    by (unfold upperCasesToCapital, isAsciiLetter in Hu; lia).
  pose proof (allFrom_spec _ _ 0 capitals_checked u Hrange) as Hcheck.
  unfold capitalChecked in Hcheck. rewrite Hu in Hcheck.
  destruct (list_eq_dec Z.eq_dec (upperUnits u) [capitalOf u]) as [Heq | _];
    [| discriminate].
  split; [exact Heq |].
  unfold upperCasesToCapital, isAsciiLetter in Hu. unfold capitalOf, asciiUpper, isCapital.
  destruct (Z.eqb_spec u 0x131); [reflexivity |].
  destruct (Z.eqb_spec u 0x17F); [reflexivity |].
  destruct ((97 <=? u) && (u <=? 122)) eqn:Hlower; lia.
Qed.

(** The upper-case form of any other code point: never empty, and never
    one capital letter. *)
Lemma upperUnits_other (cp : Z) :
  upperCasesToCapital cp = false ->
  (exists c, upperUnits cp = [c] /\ isCapital c = false)
  \/ (exists c d rest, upperUnits cp = c :: d :: rest
        /\ (0x10000 <= cp -> isCapital c = false)).
Proof.
  intros Hcp. unfold upperUnits, upperCodePoint.
  destruct (lookupSpecial upperSpecial cp) as [image |] eqn:Hspecial.
  - apply lookupSpecial_in in Hspecial.
    pose proof upperSpecial_checked as Hall. rewrite forallb_forall in Hall.
    specialize (Hall _ Hspecial). cbn [specialEntryChecked] in Hall.
    apply andb_prop in Hall. destruct Hall as [Hall Hlen].
    apply andb_prop in Hall. destruct Hall as [Hkey _].
    right. destruct (upperUnits_several image ltac:(lia)) as (c & d & rest & ->).
    exists c, d, rest. split; [reflexivity | lia].
  - assert (Hone : forall c, (isCapital c = true -> False) ->
              (exists c', flat_map codeUnits [c] = [c'] /\ isCapital c' = false)
              \/ (exists c' d rest, flat_map codeUnits [c] = c' :: d :: rest
                    /\ (0x10000 <= cp -> isCapital c' = false))).
    { intros c Hc. cbn [flat_map]. rewrite app_nil_r.
      destruct (codeUnits_cases c) as [-> | (h & l & -> & Hh)].
      - left. exists c. split; [reflexivity |].
        destruct (isCapital c); [exfalso; apply Hc; reflexivity | reflexivity].
      - right. exists h, l, []. split; [reflexivity | intros _; exact Hh]. }
    destruct (lookupRange upperRanges cp) as [c |] eqn:Hrange; apply Hone.
    + intros Hc. apply lookupRange_in in Hrange.
      destruct Hrange as (first & last & stride & offset & Hmem & Hcp' & ->).
      pose proof upperRanges_checked as Hall. rewrite forallb_forall in Hall.
      specialize (Hall _ Hmem). cbn [rangeEntryChecked] in Hall.
      unfold isCapital in Hc.
      apply orb_prop in Hall. destruct Hall as [Hall | Hall];
        [apply orb_prop in Hall; destruct Hall; lia |].
      rewrite (allFrom_spec _ _ _ Hall cp ltac:(lia)) in Hcp. discriminate.
    + intros Hc. unfold upperCasesToCapital, isAsciiLetter in Hcp.
      unfold isCapital in Hc. lia.
Qed.

Lemma testTwoCapitals_app (x y : jsstring) :
  x <> [] -> y <> [] ->
  testTwoCapitals (x ++ y) = true ->
  exists c d, x = [c] /\ y = [d] /\ isCapital c = true /\ isCapital d = true.
Proof.
  intros Hx Hy.
  destruct x as [| c [| c' x]]; [contradiction | |];
    destruct y as [| d [| d' y]]; try contradiction; cbn [app testTwoCapitals];
    try discriminate.
  - intros H. apply andb_prop in H. exists c, d. repeat split; apply H.
  - destruct x; discriminate.
  - destruct x; discriminate.
Qed.

Lemma upperUnits_nonempty (cp : Z) : upperUnits cp <> [].
Proof.
  destruct (upperCasesToCapital cp) eqn:Hcp.
  - rewrite (proj1 (upperUnits_capital _ Hcp)). discriminate.
  - destruct (upperUnits_other _ Hcp) as [(c & -> & _) | (c & d & rest & -> & _)];
      discriminate.
Qed.

(** The test of [validateStateCode] on an input of two code units. *)
Lemma testTwoCapitals_two_units (a b : Z) :
  testTwoCapitals (toUpperCase [a; b]) = upperCasesToCapital a && upperCasesToCapital b
  /\ (upperCasesToCapital a && upperCasesToCapital b = true ->
      toUpperCase [a; b] = [capitalOf a; capitalOf b]).
Proof.
  unfold toUpperCase. cbn [codePoints].
  destruct (isHighSurrogate a && isLowSurrogate b) eqn:Hpair.
  - apply andb_prop in Hpair. destruct Hpair as [Ha Hb].
    assert (Hacc : upperCasesToCapital a = false)
      by (unfold isHighSurrogate in Ha; unfold upperCasesToCapital, isAsciiLetter; lia).
    rewrite Hacc. cbn [andb]. split; [| discriminate].
    cbn [flat_map]. rewrite app_nil_r.
    fold (upperUnits (0x10000 + (a - 0xD800) * 0x400 + (b - 0xDC00))).
    assert (Hastral : 0x10000 <= 0x10000 + (a - 0xD800) * 0x400 + (b - 0xDC00))
      by (unfold isHighSurrogate in Ha; unfold isLowSurrogate in Hb; lia).
    assert (Hother : upperCasesToCapital (0x10000 + (a - 0xD800) * 0x400 + (b - 0xDC00))
                     = false)
      by (unfold upperCasesToCapital, isAsciiLetter; lia).
    destruct (upperUnits_other _ Hother) as [(c & -> & _) | (c & d & rest & -> & Hc)];
      [reflexivity |].
    cbn [testTwoCapitals]. rewrite (Hc Hastral). destruct rest; reflexivity.
  - cbn [flat_map]. rewrite !app_nil_r, flat_map_app.
    change (flat_map codeUnits (upperCodePoint a)) with (upperUnits a).
    change (flat_map codeUnits (upperCodePoint b)) with (upperUnits b).
    destruct (upperCasesToCapital a) eqn:Ha; [destruct (upperCasesToCapital b) eqn:Hb |];
      cbn [andb].
    + destruct (upperUnits_capital _ Ha) as [-> Hca].
      destruct (upperUnits_capital _ Hb) as [-> Hcb].
      cbn [app testTwoCapitals]. rewrite Hca, Hcb. split; reflexivity.
    + split; [| discriminate].
      destruct (testTwoCapitals (upperUnits a ++ upperUnits b)) eqn:Htest; [| reflexivity].
      destruct (testTwoCapitals_app _ _ (upperUnits_nonempty a) (upperUnits_nonempty b) Htest)
        as (c & d & _ & Hd & _ & Hcd).
      destruct (upperUnits_other _ Hb) as [(d' & Hd' & Hcap) | (c' & d' & rest & Hd' & _)];
        rewrite Hd' in Hd; [injection Hd as <-; congruence | discriminate].
    + split; [| discriminate].
      destruct (testTwoCapitals (upperUnits a ++ upperUnits b)) eqn:Htest; [| reflexivity].
      destruct (testTwoCapitals_app _ _ (upperUnits_nonempty a) (upperUnits_nonempty b) Htest)
        as (c & d & Hc & _ & Hcc & _).
      destruct (upperUnits_other _ Ha) as [(c' & Hc' & Hcap) | (c' & d' & rest & Hc' & _)];
        rewrite Hc' in Hc; [injection Hc as <-; congruence | discriminate].
Qed.

(** X19.  On an input of exactly two UTF-16 code units, [validateStateCode]
    succeeds exactly when each unit is an ASCII letter, U+0131 (dotless i)
    or U+017F (long s), and then returns the two corresponding capital
    letters; every other input of two code units, a surrogate pair
    included, fails with INVALID_STATE_CODE. *)
Theorem validateStateCode_two_code_units (a b : Z) :
  validateStateCode [a; b] =
    if upperCasesToCapital a && upperCasesToCapital b
    then Return [capitalOf a; capitalOf b]
    else Throw (Typed (invalidStateCode [a; b])).
Proof.
  destruct (testTwoCapitals_two_units a b) as [Htest Hvalue].
  unfold validateStateCode. rewrite Htest.
  destruct (upperCasesToCapital a && upperCasesToCapital b); cbn [negb].
  - rewrite (Hvalue eq_refl). reflexivity.
  - reflexivity.
Qed.


(** ** Coordinates that pass validation *)

Lemma digits2_pos_bound (m : positive) : Z.pos m < 2 ^ Z.pos (digits2_pos m).
Proof.
  induction m as [m IH | m IH |]; cbn [digits2_pos];
    rewrite ?Pos2Z.inj_succ, ?Z.pow_succ_r by lia; lia.
Qed.

(** A valid binary64 mantissa has at most 53 bits. *)
Lemma valid_mantissa_bound (s : bool) (m : positive) (e : Z) :
  valid_binary (S754_finite s m e) = true -> Z.pos m < 2 ^ 53.
Proof.
  cbn [valid_binary]. unfold bounded, canonical_mantissa, fexp, emin, emax, prec.
  intros H. apply andb_prop in H. destruct H as [Hcanonical _].
  apply Z.eqb_eq in Hcanonical.
  pose proof (digits2_pos_bound m) as Hm.
  assert (Hdigits : Z.pos (digits2_pos m) <= 53) by lia.
  eapply Z.lt_le_trans; [exact Hm |].
  apply Z.pow_le_mono_r; lia.
Qed.

(** A valid value between [-h] and [h], for a finite [h] with a negative
    exponent, is printed in fixed notation. *)
Lemma bounded_inFixedRange (sx : spec_float) (mh : positive) (eh : Z) :
  eh <= 0 -> valid_binary sx = true ->
  SFleb (S754_finite true mh eh) sx = true ->
  SFleb sx (S754_finite false mh eh) = true ->
  match sx with
  | S754_zero _ => True
  | S754_finite _ m e => atLeast1e21 m e = false
  | _ => False
  end.
Proof.
  intros Heh Hvalid Hlow Hhigh.
  destruct sx as [s | s | | s m e]; [exact I | | discriminate |].
  - destruct s; [discriminate Hlow | discriminate Hhigh].
  - assert (He : e <= eh).
    { unfold SFleb in Hlow, Hhigh. cbn [SFcompare] in Hlow, Hhigh.
      destruct s.
      - rewrite (Z.compare_antisym e eh) in Hlow.
        destruct (Z.compare_spec e eh); cbn [CompOpp] in Hlow; try discriminate; lia.
      - destruct (Z.compare_spec e eh); try discriminate; lia. }
    pose proof (valid_mantissa_bound _ _ _ Hvalid) as Hm.
    unfold atLeast1e21. apply Z.leb_gt.
    rewrite (Z.max_l 0 e) by lia. rewrite Z.pow_0_r, Z.mul_1_r.
    assert (1 <= 2 ^ Z.max 0 (- e)) by (apply Z.pow_le_mono_r with (b := 0); lia).
    assert (2 ^ 53 < 10 ^ 21) by reflexivity.
    nia.
Qed.

Lemma withinRange_inFixedRange (x : float) :
  withinRange (-90) 90 x = true \/ withinRange (-180) 180 x = true ->
  inFixedRange x = true.
Proof.
  unfold withinRange, inFixedRange. rewrite !leb_spec.
  pose proof (Prim2SF_valid x) as Hvalid.
  intros [H | H]; apply andb_prop in H; destruct H as [Hlow Hhigh].
  - pose proof (bounded_inFixedRange (Prim2SF x) 6333186975989760 (-46) ltac:(lia)
                  Hvalid Hlow Hhigh) as Hshape.
    destruct (Prim2SF x); try contradiction; [reflexivity | rewrite Hshape; reflexivity].
  - pose proof (bounded_inFixedRange (Prim2SF x) 6333186975989760 (-45) ltac:(lia)
                  Hvalid Hlow Hhigh) as Hshape.
    destruct (Prim2SF x); try contradiction; [reflexivity | rewrite Hshape; reflexivity].
Qed.

Lemma toFixed_NaN (x : float) (fractionDigits : Z) :
  PrimFloat.is_nan x = true -> toFixed x fractionDigits = js "NaN".
Proof.
  intros Hnan. unfold toFixed, NumberToString, Prim2SF. rewrite Hnan. reflexivity.
Qed.

Lemma accepted_coordinate_format (low high x : float) :
  (low = (-90)%float /\ high = 90%float) \/ (low = (-180)%float /\ high = 180%float) ->
  PrimFloat.ltb x low || PrimFloat.ltb high x = false ->
  toFixed x CONFIG.COORDINATE_PRECISION = js "NaN"
  \/ FixedDecimal 4 (toFixed x CONFIG.COORDINATE_PRECISION).
Proof.
  intros Hbounds Hrange.
  assert (Hok : PrimFloat.is_nan x || withinRange low high x = true).
  { destruct Hbounds as [[-> ->] | [-> ->]];
      [rewrite (outside_range (-90) 90 x eq_refl eq_refl) in Hrange
      | rewrite (outside_range (-180) 180 x eq_refl eq_refl) in Hrange];
      apply negb_false_iff in Hrange; exact Hrange. }
  destruct (PrimFloat.is_nan x) eqn:Hnan.
  - left. apply toFixed_NaN, Hnan.
  - right. apply toFixed_shape, withinRange_inFixedRange.
    cbn [orb] in Hok. destruct Hbounds as [[-> ->] | [-> ->]]; [left | right]; exact Hok.
Qed.

(** X20.  For every pair of coordinates that passes [validateCoordinates],
    the path that [formatCoordinates] builds for the grid-point URL is the
    latitude, a comma and the longitude, each either "NaN" or a decimal
    with exactly four digits after the point. *)
Theorem validated_coordinates_format (latitude longitude : float) :
  validateCoordinates latitude longitude = Return tt ->
  exists a b,
    formatCoordinates latitude longitude = a ++ js "," ++ b
    /\ (a = js "NaN" \/ FixedDecimal 4 a)
    /\ (b = js "NaN" \/ FixedDecimal 4 b).
Proof.
  unfold validateCoordinates.
  destruct (PrimFloat.ltb latitude (-90) || PrimFloat.ltb 90 latitude) eqn:Hlat;
    [discriminate |].
  destruct (PrimFloat.ltb longitude (-180) || PrimFloat.ltb 180 longitude) eqn:Hlon;
    [discriminate |].
  intros _.
  exists (toFixed latitude CONFIG.COORDINATE_PRECISION),
         (toFixed longitude CONFIG.COORDINATE_PRECISION).
  split; [reflexivity |]. split.
  - apply (accepted_coordinate_format (-90) 90); [left; split; reflexivity | exact Hlat].
  - apply (accepted_coordinate_format (-180) 180); [right; split; reflexivity | exact Hlon].
Qed.

(** X20 at a point in New York. *)
Lemma validated_coordinates_format_witness :
  exists a b,
    formatCoordinates 40.7128 (-74.006) = a ++ js "," ++ b
    /\ (a = js "NaN" \/ FixedDecimal 4 a)
    /\ (b = js "NaN" \/ FixedDecimal 4 b).
Proof.
  exact (validated_coordinates_format 40.7128%float (-74.006)%float eq_refl).
Defined.
